(** * Bryant Evolution climate entity

    A shallow embedding of
    [homeassistant/components/bryant_evolution/climate.py]: the
    [BryantEvolutionClimate] entity, its polling method [async_update]
    and its three mutators.  The entity's attributes, the device client
    and the sequence of calls the entity makes are threaded through a
    state-and-exception monad; an exception keeps the attributes as
    they were mutated up to the [raise], as in Python. *)

From Stdlib Require Import ZArith QArith List String Ascii Bool Lia.
From Stdlib Require Import DecimalString DecimalZ.
Import ListNotations.

Local Open Scope string_scope.
Local Open Scope list_scope.
Local Open Scope Z_scope.

(** ** Python values used by the entity *)

(** [str.upper] and [str.lower] on ASCII strings, where they change
    the letters [a-z] / [A-Z] and nothing else.  Strings are sequences
    of bytes; the device speaks an ASCII protocol.  Python's case
    mapping of other characters is not modelled (the bytes are left as
    they are), so a statement that depends on how an arbitrary string
    folds is made for ASCII strings ([is_ascii] below). *)
Definition upper_ascii (c : ascii) : ascii :=
  let n := N_of_ascii c in
  if (97 <=? n)%N && (n <=? 122)%N then ascii_of_N (n - 32) else c.

Definition lower_ascii (c : ascii) : ascii :=
  let n := N_of_ascii c in
  if (65 <=? n)%N && (n <=? 90)%N then ascii_of_N (n + 32) else c.

Fixpoint upper (s : string) : string :=
  match s with
  | EmptyString => EmptyString
  | String c r => String (upper_ascii c) (upper r)
  end.

Fixpoint lower (s : string) : string :=
  match s with
  | EmptyString => EmptyString
  | String c r => String (lower_ascii c) (lower r)
  end.

(** Case-insensitive comparison of two strings. *)
Definition same_mode (s t : string) : Prop := lower s = lower t.

(** A string of ASCII characters only: every byte is below 128. *)
Fixpoint is_ascii (s : string) : bool :=
  match s with
  | EmptyString => true
  | String (Ascii _ _ _ _ _ _ _ b7) r => negb b7 && is_ascii r
  end.

(** The numbers a service call can carry in [**kwargs]: Python [int]s
    and finite [float]s (every finite float is a rational). *)
Inductive number : Type :=
| Int (z : Z)
| Float (q : Q).

(** Truth value of a number: only zero is falsy. *)
Definition truthy (v : number) : bool :=
  match v with
  | Int z => negb (z =? 0)
  | Float q => negb (Qnum q =? 0)
  end.


(** [int(x)]: truncation towards zero. *)
Definition int (v : number) : Z :=
  match v with
  | Int z => z
  | Float q => Z.quot (Qnum q) (Zpos (Qden q))
  end.

(** [str(x)] for an optional integer attribute. *)
Definition str (o : option Z) : string :=
  match o with
  | Some z => NilZero.string_of_int (Z.to_int z)
  | None => "None"
  end.

(** ** Host enumerations *)

Module HVACMode.
(** Modelled from the spec: the host's [HVACMode] string enumeration
    (its declaration is in the climate platform, outside this
    component); [value] is the string a member compares equal to. *)
Inductive t : Type :=
| OFF | HEAT | COOL | HEAT_COOL | AUTO | DRY | FAN_ONLY.

Definition value (m : t) : string :=
  match m with
  | OFF => "off"
  | HEAT => "heat"
  | COOL => "cool"
  | HEAT_COOL => "heat_cool"
  | AUTO => "auto"
  | DRY => "dry"
  | FAN_ONLY => "fan_only"
  end.

Definition eqb (a b : t) : bool :=
  match a, b with
  | OFF, OFF | HEAT, HEAT | COOL, COOL | HEAT_COOL, HEAT_COOL
  | AUTO, AUTO | DRY, DRY | FAN_ONLY, FAN_ONLY => true
  | _, _ => false
  end.
End HVACMode.

Module HVACAction.
(** Modelled from the spec: the members of the host's [HVACAction]
    enumeration that the entity returns. *)
Inductive t : Type :=
| OFF | HEATING | COOLING.
End HVACAction.

(** ** Errors *)

(** Values put into [translation_placeholders]. *)
Inductive placeholder : Type :=
| PText (s : string)
| PModeAndActive (mode : string) (is_active : bool).

Record HomeAssistantError : Type := mkError {
  translation_domain : string;
  translation_key : string;
  translation_placeholders : list (string * placeholder)
}.

Fixpoint placeholder_of (k : string) (l : list (string * placeholder))
  : option placeholder :=
  match l with
  | [] => None
  | (k', v) :: r => if String.eqb k k' then Some v else placeholder_of k r
  end.

(** The two error kinds of the design, told apart by translation key. *)
Definition read_error_keys : list string :=
  ["failed_to_read_hvac_mode"; "failed_to_parse_hvac_mode";
   "failed_to_read_hvac_action"].

Definition write_error_keys : list string :=
  ["failed_to_set_hvac_mode"; "failed_to_set_clsp"; "failed_to_set_htsp";
   "failed_to_set_temp"; "failed_to_set_fan_mode"].

Definition DeviceReadError (e : HomeAssistantError) : Prop :=
  In (translation_key e) read_error_keys.

Definition DeviceWriteError (e : HomeAssistantError) : Prop :=
  In (translation_key e) write_error_keys.

(** ** The device client *)

(** Modelled from the spec: the external device client
    ([BryantEvolutionClient]), a collaborator with a state of its own.
    Every accessor may change that state; reads answer [None] and
    writes answer [false] on failure. *)
Record BryantEvolutionClient (D : Type) : Type := {
  read_current_temperature : D -> option Z * D;
  read_fan_mode : D -> option string * D;
  read_hvac_mode : D -> option (string * bool) * D;
  read_heating_setpoint : D -> option Z * D;
  read_cooling_setpoint : D -> option Z * D;
  set_hvac_mode : string -> D -> bool * D;
  set_heating_setpoint : Z -> D -> bool * D;
  set_cooling_setpoint : Z -> D -> bool * D;
  set_fan_mode : string -> D -> bool * D
}.

Arguments read_current_temperature {D}.
Arguments read_fan_mode {D}.
Arguments read_hvac_mode {D}.
Arguments read_heating_setpoint {D}.
Arguments read_cooling_setpoint {D}.
Arguments set_hvac_mode {D}.
Arguments set_heating_setpoint {D}.
Arguments set_cooling_setpoint {D}.
Arguments set_fan_mode {D}.

(** What the entity does to the outside, in the order it does it. *)
Inductive Event : Type :=
| ReadCurrentTemperature
| ReadFanMode
| ReadHvacMode
| ReadHeatingSetpoint
| ReadCoolingSetpoint
| SetHvacMode (mode : string)
| SetHeatingSetpoint (temp : Z)
| SetCoolingSetpoint (temp : Z)
| SetFanMode (mode : string)
| WriteHaState
| LogError.

(** ** Entity state *)

Record Attrs : Type := mkAttrs {
  current_temperature : option Z;
  fan_mode : option string;
  hvac_mode : option HVACMode.t;
  target_temperature : option Z;
  target_temperature_high : option Z;
  target_temperature_low : option Z;
  hvac_action : option HVACAction.t
}.

Definition set_current_temperature (v : option Z) (a : Attrs) : Attrs :=
  mkAttrs v (fan_mode a) (hvac_mode a) (target_temperature a)
          (target_temperature_high a) (target_temperature_low a)
          (hvac_action a).

Definition set_fan_mode_attr (v : option string) (a : Attrs) : Attrs :=
  mkAttrs (current_temperature a) v (hvac_mode a) (target_temperature a)
          (target_temperature_high a) (target_temperature_low a)
          (hvac_action a).

Definition set_hvac_mode_attr (v : option HVACMode.t) (a : Attrs) : Attrs :=
  mkAttrs (current_temperature a) (fan_mode a) v (target_temperature a)
          (target_temperature_high a) (target_temperature_low a)
          (hvac_action a).

Definition set_target_temperature (v : option Z) (a : Attrs) : Attrs :=
  mkAttrs (current_temperature a) (fan_mode a) (hvac_mode a) v
          (target_temperature_high a) (target_temperature_low a)
          (hvac_action a).

Definition set_target_temperature_high (v : option Z) (a : Attrs) : Attrs :=
  mkAttrs (current_temperature a) (fan_mode a) (hvac_mode a)
          (target_temperature a) v (target_temperature_low a)
          (hvac_action a).

Definition set_target_temperature_low (v : option Z) (a : Attrs) : Attrs :=
  mkAttrs (current_temperature a) (fan_mode a) (hvac_mode a)
          (target_temperature a) (target_temperature_high a) v
          (hvac_action a).

Definition set_hvac_action (v : option HVACAction.t) (a : Attrs) : Attrs :=
  mkAttrs (current_temperature a) (fan_mode a) (hvac_mode a)
          (target_temperature a) (target_temperature_high a)
          (target_temperature_low a) v.

(** The entity together with its surroundings: its attributes, the
    device behind the client, and the calls made so far. *)
Record World (D : Type) : Type := mkWorld {
  attrs : Attrs;
  device : D;
  calls : list Event
}.

Arguments mkWorld {D}.
Arguments attrs {D}.
Arguments device {D}.
Arguments calls {D}.

(** ** State and exception monad *)

Definition M (D A : Type) : Type :=
  World D -> (A + HomeAssistantError) * World D.

Definition ret {D A} (a : A) : M D A := fun w => (inl a, w).

Definition raise {D A} (e : HomeAssistantError) : M D A :=
  fun w => (inr e, w).

Definition bind {D A B} (m : M D A) (k : A -> M D B) : M D B :=
  fun w =>
    match m w with
    | (inl a, w') => k a w'
    | (inr e, w') => (inr e, w')
    end.

Declare Scope entity_scope.
Delimit Scope entity_scope with entity.
Notation "x <- m ;; k" := (bind m (fun x => k))
  (at level 61, m at next level, right associativity) : entity_scope.
Notation "m ;; k" := (bind m (fun _ => k))
  (at level 61, right associativity) : entity_scope.
Local Open Scope entity_scope.

(** [await self._client.op(...)]: run the accessor on the device and
    record the call. *)
Definition await {D A} (ev : Event) (op : D -> A * D) : M D A :=
  fun w =>
    let (a, d) := op (device w) in
    (inl a, mkWorld (attrs w) d (calls w ++ [ev])).

(** Read and assign the entity's attributes. *)
Definition self {D} : M D Attrs := fun w => (inl (attrs w), w).

Definition assign {D} (f : Attrs -> Attrs) : M D unit :=
  fun w => (inl tt, mkWorld (f (attrs w)) (device w) (calls w)).

(** The host's state-write signal ([async_write_ha_state]). *)
Definition async_write_ha_state {D} : M D unit :=
  fun w => (inl tt, mkWorld (attrs w) (device w) (calls w ++ [WriteHaState])).

Definition log_error {D} : M D unit :=
  fun w => (inl tt, mkWorld (attrs w) (device w) (calls w ++ [LogError])).

(** ** The entity's methods *)

(** Keyword arguments of the set-temperature service call; [None] is a
    key that is missing or bound to [None]. *)
Record Kwargs : Type := mkKwargs {
  target_temp_high : option number;
  target_temp_low : option number;
  temperature : option number
}.

Section BryantEvolutionClimate.
Context {D : Type}.
Variable client : BryantEvolutionClient D.
(** The integration's domain string, declared in [const.py]. *)
Variable DOMAIN : string.

Definition _read_hvac_mode : M D HVACMode.t :=
  mode_and_active <- await ReadHvacMode (read_hvac_mode client) ;;
  match mode_and_active with
  | None => raise (mkError DOMAIN "failed_to_read_hvac_mode" [])
  | Some (mode, _) =>
      if (upper mode =? "HEAT")%string then ret HVACMode.HEAT
      else if (upper mode =? "COOL")%string then ret HVACMode.COOL
      else if (upper mode =? "AUTO")%string then ret HVACMode.HEAT_COOL
      else if (upper mode =? "OFF")%string then ret HVACMode.OFF
      else raise (mkError DOMAIN "failed_to_parse_hvac_mode"
                          [("mode", PText mode)])
  end.

Definition _read_hvac_action : M D HVACAction.t :=
  mode_and_active <- await ReadHvacMode (read_hvac_mode client) ;;
  match mode_and_active with
  | None => raise (mkError DOMAIN "failed_to_read_hvac_action" [])
  | Some (mode, is_active) =>
      if negb is_active then ret HVACAction.OFF
      else
        a <- self ;;
        let unresolved :=
          raise (mkError DOMAIN "failed_to_parse_hvac_mode"
                   [("mode_and_active", PModeAndActive mode is_active);
                    ("current_temperature",
                     PText (str (current_temperature a)));
                    ("target_temperature_low",
                     PText (str (target_temperature_low a)))]) in
        if (upper mode =? "HEAT")%string then ret HVACAction.HEATING
        else if (upper mode =? "COOL")%string then ret HVACAction.COOLING
        else if (upper mode =? "OFF")%string then ret HVACAction.OFF
        else if (upper mode =? "AUTO")%string then
          match current_temperature a, target_temperature_low a with
          | Some cur, Some low =>
              if cur >? low then ret HVACAction.COOLING
              else ret HVACAction.HEATING
          | _, _ => unresolved
          end
        else unresolved
  end.

(** [async_update] up to the point where the setpoints are read
    (everything before the assignment of [_attr_hvac_action]). *)
Definition async_update_readings : M D unit :=
  t <- await ReadCurrentTemperature (read_current_temperature client) ;;
  assign (set_current_temperature t) ;;
  f <- await ReadFanMode (read_fan_mode client) ;;
  assign (set_fan_mode_attr f) ;;
  a <- self ;;
  match fan_mode a with
  | Some s => assign (set_fan_mode_attr (Some (lower s)))
  | None => ret tt
  end ;;
  assign (set_target_temperature None) ;;
  assign (set_target_temperature_high None) ;;
  assign (set_target_temperature_low None) ;;
  m <- _read_hvac_mode ;;
  assign (set_hvac_mode_attr (Some m)) ;;
  a <- self ;;
  match hvac_mode a with
  | Some HVACMode.HEAT =>
      sp <- await ReadHeatingSetpoint (read_heating_setpoint client) ;;
      assign (set_target_temperature sp)
  | Some HVACMode.COOL =>
      sp <- await ReadCoolingSetpoint (read_cooling_setpoint client) ;;
      assign (set_target_temperature sp)
  | Some HVACMode.HEAT_COOL =>
      hi <- await ReadCoolingSetpoint (read_cooling_setpoint client) ;;
      assign (set_target_temperature_high hi) ;;
      lo <- await ReadHeatingSetpoint (read_heating_setpoint client) ;;
      assign (set_target_temperature_low lo)
  | Some HVACMode.OFF => ret tt
  | _ => log_error
  end.

Definition async_update : M D unit :=
  async_update_readings ;;
  act <- _read_hvac_action ;;
  assign (set_hvac_action (Some act)).

Definition async_set_hvac_mode (hvac_mode : HVACMode.t) : M D unit :=
  let hvac_mode :=
    if HVACMode.eqb hvac_mode HVACMode.HEAT_COOL then HVACMode.AUTO
    else hvac_mode in
  ok <- await (SetHvacMode (HVACMode.value hvac_mode))
              (set_hvac_mode client (HVACMode.value hvac_mode)) ;;
  if negb ok then raise (mkError DOMAIN "failed_to_set_hvac_mode" [])
  else
    assign (set_hvac_mode_attr (Some hvac_mode)) ;;
    async_write_ha_state.

Definition async_set_temperature (kwargs : Kwargs) : M D unit :=
  match target_temp_high kwargs with
  | Some v =>
      if truthy v then
        let temp := int v in
        ok <- await (SetCoolingSetpoint temp)
                    (set_cooling_setpoint client temp) ;;
        if negb ok then raise (mkError DOMAIN "failed_to_set_clsp" [])
        else
          assign (set_target_temperature_high (Some temp)) ;;
          async_write_ha_state
      else ret tt
  | None => ret tt
  end ;;
  match target_temp_low kwargs with
  | Some v =>
      if truthy v then
        let temp := int v in
        ok <- await (SetHeatingSetpoint temp)
                    (set_heating_setpoint client temp) ;;
        if negb ok then raise (mkError DOMAIN "failed_to_set_htsp" [])
        else
          assign (set_target_temperature_low (Some temp)) ;;
          async_write_ha_state
      else ret tt
  | None => ret tt
  end ;;
  match temperature kwargs with
  | Some v =>
      if truthy v then
        let temp := int v in
        a <- self ;;
        let fn :=
          match hvac_mode a with
          | Some HVACMode.HEAT =>
              await (SetHeatingSetpoint temp)
                    (set_heating_setpoint client temp)
          | _ =>
              await (SetCoolingSetpoint temp)
                    (set_cooling_setpoint client temp)
          end in
        ok <- fn ;;
        if negb ok then raise (mkError DOMAIN "failed_to_set_temp" [])
        else
          assign (set_target_temperature (Some temp)) ;;
          async_write_ha_state
      else ret tt
  | None => ret tt
  end.

Definition async_set_fan_mode (fan_mode : string) : M D unit :=
  ok <- await (SetFanMode fan_mode) (set_fan_mode client fan_mode) ;;
  if negb ok then raise (mkError DOMAIN "failed_to_set_fan_mode" [])
  else
    assign (set_fan_mode_attr (Some (lower fan_mode))) ;;
    async_write_ha_state.

End BryantEvolutionClimate.

(** ** Vocabulary of the statements *)

(** A mode string the entity understands, compared without regard to
    case. *)
Definition recognized (mode : string) : Prop :=
  same_mode mode "heat" \/ same_mode mode "cool" \/
  same_mode mode "auto" \/ same_mode mode "off".

Definition raises {D A} (r : (A + HomeAssistantError) * World D) : Prop :=
  exists e, fst r = inr e.

Definition returns {D A} (r : (A + HomeAssistantError) * World D) : Prop :=
  exists a, fst r = inl a.

(** The two setpoint groups of the entity. *)
Definition single_populated (a : Attrs) : Prop :=
  target_temperature a <> None.

Definition range_populated (a : Attrs) : Prop :=
  target_temperature_high a <> None /\ target_temperature_low a <> None.

Definition single_absent (a : Attrs) : Prop :=
  target_temperature a = None.

Definition range_absent (a : Attrs) : Prop :=
  target_temperature_high a = None /\ target_temperature_low a = None.

(** The fields of a set-temperature call, and the write each one asks
    for once its value has passed the truth test and [int]. *)
Inductive Field : Type :=
| TargetTempHigh
| TargetTempLow
| Temperature.

Record FieldWrite : Type := mkFieldWrite {
  fw_field : Field;
  fw_temp : Z
}.

Definition field_write (f : Field) (o : option number) : list FieldWrite :=
  match o with
  | Some v => if truthy v then [mkFieldWrite f (int v)] else []
  | None => []
  end.

(** The writes of a call in the order [async_set_temperature] makes
    them. *)
Definition pending (kwargs : Kwargs) : list FieldWrite :=
  field_write TargetTempHigh (target_temp_high kwargs) ++
  field_write TargetTempLow (target_temp_low kwargs) ++
  field_write Temperature (temperature kwargs).

(** The order the specification gives: target, then high, then low. *)
Definition spec_order_pending (kwargs : Kwargs) : list FieldWrite :=
  field_write Temperature (temperature kwargs) ++
  field_write TargetTempHigh (target_temp_high kwargs) ++
  field_write TargetTempLow (target_temp_low kwargs).

(** Does the single-target write go to the heating setpoint? *)
Definition heats (mode : option HVACMode.t) : bool :=
  match mode with
  | Some HVACMode.HEAT => true
  | _ => false
  end.

Definition fw_event (mode : option HVACMode.t) (w : FieldWrite) : Event :=
  match fw_field w with
  | TargetTempHigh => SetCoolingSetpoint (fw_temp w)
  | TargetTempLow => SetHeatingSetpoint (fw_temp w)
  | Temperature =>
      if heats mode then SetHeatingSetpoint (fw_temp w)
      else SetCoolingSetpoint (fw_temp w)
  end.

Definition fw_setter {D} (client : BryantEvolutionClient D)
  (mode : option HVACMode.t) (w : FieldWrite) : D -> bool * D :=
  match fw_field w with
  | TargetTempHigh => set_cooling_setpoint client (fw_temp w)
  | TargetTempLow => set_heating_setpoint client (fw_temp w)
  | Temperature =>
      if heats mode then set_heating_setpoint client (fw_temp w)
      else set_cooling_setpoint client (fw_temp w)
  end.

Definition fw_store (w : FieldWrite) : Attrs -> Attrs :=
  match fw_field w with
  | TargetTempHigh => set_target_temperature_high (Some (fw_temp w))
  | TargetTempLow => set_target_temperature_low (Some (fw_temp w))
  | Temperature => set_target_temperature (Some (fw_temp w))
  end.

Definition fw_error_key (w : FieldWrite) : string :=
  match fw_field w with
  | TargetTempHigh => "failed_to_set_clsp"
  | TargetTempLow => "failed_to_set_htsp"
  | Temperature => "failed_to_set_temp"
  end.

(** The local attribute a field is stored in. *)
Definition attr_of (f : Field) (a : Attrs) : option Z :=
  match f with
  | TargetTempHigh => target_temperature_high a
  | TargetTempLow => target_temperature_low a
  | Temperature => target_temperature a
  end.

(** Calls made for a list of writes that all succeed. *)
Definition completed (mode : option HVACMode.t) (ws : list FieldWrite)
  : list Event :=
  flat_map (fun f => [fw_event mode f; WriteHaState]) ws.

Definition stored (ws : list FieldWrite) (a : Attrs) : Attrs :=
  fold_left (fun a f => fw_store f a) ws a.

(** The device after the writes [ws] when each of them succeeds. *)
Fixpoint writes_succeed {D} (client : BryantEvolutionClient D)
  (mode : option HVACMode.t) (ws : list FieldWrite) (d : D) : option D :=
  match ws with
  | [] => Some d
  | f :: r =>
      let (ok, d') := fw_setter client mode f d in
      if ok then writes_succeed client mode r d' else None
  end.

(** One write and a chain of writes, as a program of their own. *)
Definition write_field {D} (client : BryantEvolutionClient D)
  (DOMAIN : string) (mode : option HVACMode.t) (f : FieldWrite) : M D unit :=
  ok <- await (fw_event mode f) (fw_setter client mode f) ;;
  if negb ok then raise (mkError DOMAIN (fw_error_key f) [])
  else assign (fw_store f) ;; async_write_ha_state.

Fixpoint run_writes {D} (client : BryantEvolutionClient D)
  (DOMAIN : string) (mode : option HVACMode.t) (ws : list FieldWrite)
  : M D unit :=
  match ws with
  | [] => ret tt
  | f :: r => write_field client DOMAIN mode f ;; run_writes client DOMAIN mode r
  end.





(** The [match] of [_read_hvac_mode] as a function of the mode
    string. *)
Definition parse_mode (mode : string) : option HVACMode.t :=
  if (upper mode =? "HEAT")%string then Some HVACMode.HEAT
  else if (upper mode =? "COOL")%string then Some HVACMode.COOL
  else if (upper mode =? "AUTO")%string then Some HVACMode.HEAT_COOL
  else if (upper mode =? "OFF")%string then Some HVACMode.OFF
  else None.

(** The [match] of [_read_hvac_action] for an active device, as a
    function of the mode string and the two attributes it reads;
    [None] stands for falling through to the final [raise]. *)
Definition resolve_action (mode : string) (cur low : option Z)
  : option HVACAction.t :=
  if (upper mode =? "HEAT")%string then Some HVACAction.HEATING
  else if (upper mode =? "COOL")%string then Some HVACAction.COOLING
  else if (upper mode =? "OFF")%string then Some HVACAction.OFF
  else if (upper mode =? "AUTO")%string then
    match cur, low with
    | Some c, Some l =>
        Some (if c >? l then HVACAction.COOLING else HVACAction.HEATING)
    | _, _ => None
    end
  else None.

(** The error of the final [raise] of [_read_hvac_action]. *)
Definition unresolved_action (DOMAIN mode : string) (is_active : bool)
  (cur low : option Z) : HomeAssistantError :=
  mkError DOMAIN "failed_to_parse_hvac_mode"
    [("mode_and_active", PModeAndActive mode is_active);
     ("current_temperature", PText (str cur));
     ("target_temperature_low", PText (str low))].

(** A call that raised a write error and left every attribute as it
    was. *)
Definition fails_unchanged {D A : Type}
  (r : (A + HomeAssistantError) * World D) (w : World D) : Prop :=
  (exists e, fst r = inr e /\ DeviceWriteError e) /\ attrs (snd r) = attrs w.

(** Exactly one of the two setpoint groups is populated and the other
    is absent. *)
Definition exactly_one_group (a : Attrs) : Prop :=
  (single_populated a /\ range_absent a) \/
  (range_populated a /\ single_absent a).

(** The device as a refresh meets it: the answer to the first mode
    read, and the device right after that read. *)
Definition polled_mode {D} (client : BryantEvolutionClient D) (d : D)
  : option (string * bool) * D :=
  read_hvac_mode client
    (snd (read_fan_mode client (snd (read_current_temperature client d)))).

(** ** A simulated thermostat

    A device with stored readings whose writes are acknowledged
    according to a script ([th_acks], one entry per write; a write
    past the end of the script succeeds). *)
Record Thermostat : Type := mkThermostat {
  th_temperature : option Z;
  th_fan : option string;
  th_mode : option (string * bool);
  th_htsp : option Z;
  th_clsp : option Z;
  th_acks : list bool
}.

Definition th_write (store : Thermostat -> Thermostat) (t : Thermostat)
  : bool * Thermostat :=
  match th_acks t with
  | [] => (true, store t)
  | true :: r =>
      let t' := store t in
      (true, mkThermostat (th_temperature t') (th_fan t') (th_mode t')
                          (th_htsp t') (th_clsp t') r)
  | false :: r =>
      (false, mkThermostat (th_temperature t) (th_fan t) (th_mode t)
                           (th_htsp t) (th_clsp t) r)
  end.

Definition thermostat : BryantEvolutionClient Thermostat := {|
  read_current_temperature := fun t => (th_temperature t, t);
  read_fan_mode := fun t => (th_fan t, t);
  read_hvac_mode := fun t => (th_mode t, t);
  read_heating_setpoint := fun t => (th_htsp t, t);
  read_cooling_setpoint := fun t => (th_clsp t, t);
  set_hvac_mode := fun s =>
    th_write (fun t =>
      mkThermostat (th_temperature t) (th_fan t)
        (Some (s, match th_mode t with Some (_, a) => a | None => false end))
        (th_htsp t) (th_clsp t) (th_acks t));
  set_heating_setpoint := fun z =>
    th_write (fun t =>
      mkThermostat (th_temperature t) (th_fan t) (th_mode t)
        (Some z) (th_clsp t) (th_acks t));
  set_cooling_setpoint := fun z =>
    th_write (fun t =>
      mkThermostat (th_temperature t) (th_fan t) (th_mode t)
        (th_htsp t) (Some z) (th_acks t));
  set_fan_mode := fun s =>
    th_write (fun t =>
      mkThermostat (th_temperature t) (Some s) (th_mode t)
        (th_htsp t) (th_clsp t) (th_acks t))
|}.

(** A freshly constructed entity: no attribute set, nothing called. *)
Definition no_attrs : Attrs := mkAttrs None None None None None None None.

Definition fresh (t : Thermostat) : World Thermostat :=
  mkWorld no_attrs t [].

Definition in_mode (m : HVACMode.t) (t : Thermostat) : World Thermostat :=
  mkWorld (set_hvac_mode_attr (Some m) no_attrs) t [].

Definition domain : string := "bryant_evolution".

(** Thermostats and calls used as concrete inputs. *)
Definition auto_72_70 : Thermostat :=
  mkThermostat (Some 72) (Some "Auto") (Some ("auto", true))
               (Some 70) (Some 78) [].


Definition heating_66 : Thermostat :=
  mkThermostat (Some 66) (Some "LOW") (Some ("Heat", true))
               (Some 70) (Some 78) [].

Definition switched_off : Thermostat :=
  mkThermostat (Some 71) (Some "Auto") (Some ("OFF", false))
               (Some 70) (Some 78) [].

(** A thermostat in heat mode that does not answer the read of its
    heating setpoint. *)
Definition heat_no_setpoint : Thermostat :=
  mkThermostat (Some 66) (Some "low") (Some ("heat", true))
               None (Some 78) [].

(** A thermostat that acknowledges its writes as [acks] says. *)
Definition cooling_74 (acks : list bool) : Thermostat :=
  mkThermostat (Some 74) (Some "med") (Some ("cool", true))
               (Some 68) (Some 76) acks.

Definition all_three_fields : Kwargs :=
  mkKwargs (Some (Int 78)) (Some (Int 68)) (Some (Int 72)).

Definition only_temperature (v : number) : Kwargs :=
  mkKwargs None None (Some v).


(** ** Class attributes and construction *)

(** The modes and fan modes the entity declares to the host. *)
Definition _attr_hvac_modes : list HVACMode.t :=
  [HVACMode.HEAT; HVACMode.COOL; HVACMode.HEAT_COOL; HVACMode.OFF].

Definition _attr_fan_modes : list string := ["auto"; "low"; "med"; "high"].

(** An integer inside an f-string. *)
Definition format_int (z : Z) : string :=
  NilZero.string_of_int (Z.to_int z).

(** [str(x)] of an optional string inside an f-string. *)
Definition format_name (o : option string) : string :=
  match o with
  | Some s => s
  | None => "None"
  end.

Module DeviceInfo.
(** The two keys of the host's [DeviceInfo] dictionary that the
    component fills in; [identifiers] is a set of pairs. *)
Record t : Type := mk {
  identifiers : list (string * string);
  name : string
}.
End DeviceInfo.

Module BryantEvolutionClimate.
(** What [__init__] sets and no method changes afterwards.  The client
    it also stores is the [client] of the methods above, and the
    attributes the methods assign are the [Attrs] of the world. *)
Record t : Type := mk {
  _attr_unique_id : string;
  _attr_device_info : DeviceInfo.t
}.

Definition __init__ (DOMAIN unique_id : string) (system_id zone_id : Z) : t :=
  mk unique_id
     (DeviceInfo.mk [(DOMAIN, unique_id)]
        ("Bryant Evolution (System " ++ format_int system_id ++
         ", Zone " ++ format_int zone_id ++ ")")).
End BryantEvolutionClimate.

Module BryantEvolutionTemperatureSensor.
Record t : Type := mk {
  _climate_entity : BryantEvolutionClimate.t;
  _attr_name : string;
  _attr_unique_id : string;
  _attr_device_info : DeviceInfo.t
}.

(** [climate_name] is what the host's [name] property answers for the
    climate entity. *)
Definition __init__ (climate_name : option string)
  (climate_entity : BryantEvolutionClimate.t) : t :=
  mk climate_entity
     (format_name climate_name ++ " Temperature")
     (BryantEvolutionClimate._attr_unique_id climate_entity ++ "_temperature")
     (BryantEvolutionClimate._attr_device_info climate_entity).

(** The sensor keeps no reading of its own: it looks at the climate
    entity it was built from, whose attributes are those of the
    world. *)
Definition native_value {D} (self : t) (w : World D) : option Z :=
  current_temperature (attrs w).
End BryantEvolutionTemperatureSensor.

(** [async_setup_entry]: the two entities handed to the host for a
    config entry with id [entry_id] and data [system_id], [zone_id]. *)
Definition async_setup_entry (DOMAIN entry_id : string)
  (system_id zone_id : Z) (climate_name : option string)
  : BryantEvolutionClimate.t * BryantEvolutionTemperatureSensor.t :=
  let climate :=
    BryantEvolutionClimate.__init__ DOMAIN (entry_id ++ "-climate")
      system_id zone_id in
  let curr_temp :=
    BryantEvolutionTemperatureSensor.__init__ climate_name climate in
  (climate, curr_temp).

(** ** Further vocabulary *)

(** The calls that only ask the device for a reading. *)
Definition is_read (e : Event) : bool :=
  match e with
  | ReadCurrentTemperature | ReadFanMode | ReadHvacMode
  | ReadHeatingSetpoint | ReadCoolingSetpoint => true
  | _ => false
  end.

(** The calls [async_set_temperature] can make. *)
Definition is_setpoint_call (e : Event) : bool :=
  match e with
  | SetHeatingSetpoint _ | SetCoolingSetpoint _ | WriteHaState => true
  | _ => false
  end.

Definition is_setpoint_write (e : Event) : bool :=
  match e with
  | SetHeatingSetpoint _ | SetCoolingSetpoint _ => true
  | _ => false
  end.

(** The mode [async_set_hvac_mode] sends and stores for a requested
    mode (the reassignment of its parameter). *)
Definition sent_mode (m : HVACMode.t) : HVACMode.t :=
  if HVACMode.eqb m HVACMode.HEAT_COOL then HVACMode.AUTO else m.

(** Two attribute records that agree on everything but the three
    setpoint attributes. *)
Definition same_readings (a b : Attrs) : Prop :=
  current_temperature a = current_temperature b /\
  fan_mode a = fan_mode b /\
  hvac_mode a = hvac_mode b /\
  hvac_action a = hvac_action b.

(** The state-write signal. *)
Definition is_signal (e : Event) : bool :=
  match e with
  | WriteHaState => true
  | _ => false
  end.

(** A client whose reads leave the device as it is. *)
Definition quiescent {D} (client : BryantEvolutionClient D) : Prop :=
  (forall d, snd (read_current_temperature client d) = d) /\
  (forall d, snd (read_fan_mode client d) = d) /\
  (forall d, snd (read_hvac_mode client d) = d) /\
  (forall d, snd (read_heating_setpoint client d) = d) /\
  (forall d, snd (read_cooling_setpoint client d) = d).

(** No character of [s] is [c]. *)
Fixpoint free_of (c : ascii) (s : string) : Prop :=
  match s with
  | EmptyString => True
  | String x r => x <> c /\ free_of c r
  end.

(** A thermostat that is off and accepts every write. *)
Definition idle_70 : Thermostat :=
  mkThermostat (Some 70) (Some "Auto") (Some ("off", false))
               (Some 68) (Some 76) [].

(** A thermostat that reports a mode the entity does not know. *)
Definition frosty : Thermostat :=
  mkThermostat (Some 41) (Some "low") (Some ("FROST", true))
               (Some 68) (Some 76) [].

(** A thermostat that does not answer the mode read. *)
Definition silent : Thermostat :=
  mkThermostat (Some 70) (Some "HIGH") None (Some 68) (Some 76) [].

(** ** Running the monad *)

Ltac unfold_entity :=
  unfold async_update, async_update_readings, _read_hvac_mode,
    _read_hvac_action, async_set_hvac_mode, async_set_temperature,
    async_set_fan_mode, write_field, bind, await, ret, raise, assign, self,
    async_write_ha_state, log_error in *.

(** * Properties *)

(** ** Case folding *)

Lemma lower_upper_ascii (c : ascii) :
  lower_ascii (upper_ascii c) = lower_ascii c.
Proof. destruct c as [[] [] [] [] [] [] [] []]; reflexivity. Qed.

Lemma upper_lower_ascii (c : ascii) :
  upper_ascii (lower_ascii c) = upper_ascii c.
Proof. destruct c as [[] [] [] [] [] [] [] []]; reflexivity. Qed.

Lemma lower_upper (s : string) : lower (upper s) = lower s.
Proof.
  induction s as [|c r IH]; simpl; [reflexivity|].
  now rewrite lower_upper_ascii, IH.
Qed.

Lemma upper_lower (s : string) : upper (lower s) = upper s.
Proof.
  induction s as [|c r IH]; simpl; [reflexivity|].
  now rewrite upper_lower_ascii, IH.
Qed.

(** Comparing upper-cased strings is comparing without regard to
    case. *)
Lemma upper_eq_same_mode (s t : string) :
  upper s = upper t <-> same_mode s t.
Proof.
  unfold same_mode; split; intros H.
  - rewrite <- (lower_upper s), <- (lower_upper t); now rewrite H.
  - rewrite <- (upper_lower s), <- (upper_lower t); now rewrite H.
Qed.

Lemma upper_heat (s : string) : same_mode s "heat" -> upper s = "HEAT".
Proof. intros H; now apply upper_eq_same_mode in H. Qed.

Lemma upper_cool (s : string) : same_mode s "cool" -> upper s = "COOL".
Proof. intros H; now apply upper_eq_same_mode in H. Qed.

Lemma upper_auto (s : string) : same_mode s "auto" -> upper s = "AUTO".
Proof. intros H; now apply upper_eq_same_mode in H. Qed.

Lemma upper_off (s : string) : same_mode s "off" -> upper s = "OFF".
Proof. intros H; now apply upper_eq_same_mode in H. Qed.

Lemma eqb_upper_same_mode (s t : string) :
  (upper s =? upper t)%string = true <-> same_mode s t.
Proof. rewrite String.eqb_eq; apply upper_eq_same_mode. Qed.

Lemma unrecognized_upper (s : string) :
  ~ recognized s ->
  (upper s =? "HEAT")%string = false /\ (upper s =? "COOL")%string = false /\
  (upper s =? "AUTO")%string = false /\ (upper s =? "OFF")%string = false.
Proof.
  intros H; unfold recognized in H.
  repeat split; apply not_true_is_false; intros E;
    apply H; [left|right; left|right; right; left|right; right; right];
    now apply (eqb_upper_same_mode s _).
Qed.

Lemma recognized_upper (s : string) :
  (upper s =? "HEAT")%string = false -> (upper s =? "COOL")%string = false ->
  (upper s =? "AUTO")%string = false -> (upper s =? "OFF")%string = false ->
  ~ recognized s.
Proof.
  intros H1 H2 H3 H4 [H|[H|[H|H]]];
    [apply upper_heat in H|apply upper_cool in H
    |apply upper_auto in H|apply upper_off in H];
    rewrite H in *; discriminate.
Qed.

Section SetTemperature.
Context {D : Type}.
Variable client : BryantEvolutionClient D.
Variable DOMAIN : string.

Lemma run_writes_app (mode : option HVACMode.t) (p q : list FieldWrite)
  (w : World D) :
  run_writes client DOMAIN mode (p ++ q) w =
  bind (run_writes client DOMAIN mode p)
       (fun _ => run_writes client DOMAIN mode q) w.
Proof.
  revert w; induction p as [|f p IH]; intros w; [reflexivity|].
  cbn [app run_writes]; unfold bind in *.
  destruct (write_field client DOMAIN mode f w) as [[[]|e] w1];
    [apply IH|reflexivity].
Qed.

(** A write never touches [hvac_mode]. *)
Lemma write_field_mode (mode : option HVACMode.t) (f : FieldWrite)
  (w : World D) :
  hvac_mode (attrs (snd (write_field client DOMAIN mode f w))) =
  hvac_mode (attrs w).
Proof.
  unfold_entity; destruct (fw_setter client mode f (device w)) as [[|] d];
    cbn; [|reflexivity].
  unfold fw_store; destruct (fw_field f); reflexivity.
Qed.

Lemma run_writes_mode (mode : option HVACMode.t) (p : list FieldWrite)
  (w : World D) :
  hvac_mode (attrs (snd (run_writes client DOMAIN mode p w))) =
  hvac_mode (attrs w).
Proof.
  revert w; induction p as [|f p IH]; intros w; [reflexivity|].
  cbn [run_writes]; unfold bind.
  pose proof (write_field_mode mode f w) as Hf.
  destruct (write_field client DOMAIN mode f w) as [[[]|e] w1]; cbn in *;
    [rewrite IH|]; exact Hf.
Qed.

(** Each block of [async_set_temperature] is the chain of the writes of
    its field. *)
Lemma high_block (mode : option HVACMode.t) (o : option number)
  (k : unit -> M D unit) (w : World D) :
  bind
    match o with
    | Some v =>
        if truthy v then
          let temp := int v in
          bind (await (SetCoolingSetpoint temp)
                      (set_cooling_setpoint client temp))
            (fun ok =>
               if negb ok then raise (mkError DOMAIN "failed_to_set_clsp" [])
               else bind (assign (set_target_temperature_high (Some temp)))
                         (fun _ => async_write_ha_state))
        else ret tt
    | None => ret tt
    end k w =
  bind (run_writes client DOMAIN mode (field_write TargetTempHigh o)) k w.
Proof.
  destruct o as [v|]; cbn; [destruct (truthy v); cbn|]; try reflexivity.
  unfold_entity; unfold fw_setter, fw_event; cbn.
  destruct (set_cooling_setpoint client (int v) (device w)) as [[|] d];
    reflexivity.
Qed.

Lemma low_block (mode : option HVACMode.t) (o : option number)
  (k : unit -> M D unit) (w : World D) :
  bind
    match o with
    | Some v =>
        if truthy v then
          let temp := int v in
          bind (await (SetHeatingSetpoint temp)
                      (set_heating_setpoint client temp))
            (fun ok =>
               if negb ok then raise (mkError DOMAIN "failed_to_set_htsp" [])
               else bind (assign (set_target_temperature_low (Some temp)))
                         (fun _ => async_write_ha_state))
        else ret tt
    | None => ret tt
    end k w =
  bind (run_writes client DOMAIN mode (field_write TargetTempLow o)) k w.
Proof.
  destruct o as [v|]; cbn; [destruct (truthy v); cbn|]; try reflexivity.
  unfold_entity; unfold fw_setter, fw_event; cbn.
  destruct (set_heating_setpoint client (int v) (device w)) as [[|] d];
    reflexivity.
Qed.

Lemma bind_cong {A B : Type} (m : M D A) (k k' : A -> M D B) (w : World D) :
  (forall a w', m w = (inl a, w') -> k a w' = k' a w') ->
  bind m k w = bind m k' w.
Proof.
  intros H; unfold bind; destruct (m w) as [[a|e] w1]; [now apply H|reflexivity].
Qed.

(** The three blocks of [async_set_temperature] are the chain of its
    pending writes. *)
Lemma set_temperature_run (kwargs : Kwargs) (w : World D) :
  async_set_temperature client DOMAIN kwargs w =
  run_writes client DOMAIN (hvac_mode (attrs w)) (pending kwargs) w.
Proof.
  set (mode := hvac_mode (attrs w)).
  unfold pending; rewrite run_writes_app.
  unfold async_set_temperature.
  rewrite (high_block mode); apply bind_cong; intros [] w1 H1.
  assert (M1 : hvac_mode (attrs w1) = mode).
  { pose proof (run_writes_mode mode
      (field_write TargetTempHigh (target_temp_high kwargs)) w) as E.
    now rewrite H1 in E. }
  cbv beta; rewrite run_writes_app.
  rewrite (low_block mode); apply bind_cong; intros [] w2 H2.
  assert (M2 : hvac_mode (attrs w2) = mode).
  { pose proof (run_writes_mode mode
      (field_write TargetTempLow (target_temp_low kwargs)) w1) as E.
    rewrite H2 in E; cbn in E; congruence. }
  destruct (temperature kwargs) as [v|]; cbn; [|reflexivity].
  destruct (truthy v); cbn; [|reflexivity].
  unfold_entity; unfold fw_setter, fw_event; cbn.
  rewrite M2; destruct mode as [[]|]; cbn;
    match goal with
    | |- context [?f client (int v) (device w2)] =>
        destruct (f client (int v) (device w2)) as [[|] d]
    end; reflexivity.
Qed.

(** What one write does. *)
Lemma write_field_run (mode : option HVACMode.t) (f : FieldWrite)
  (w : World D) :
  write_field client DOMAIN mode f w =
  let (ok, d) := fw_setter client mode f (device w) in
  if ok then
    (inl tt, mkWorld (fw_store f (attrs w)) d
                     (calls w ++ [fw_event mode f; WriteHaState]))
  else
    (inr (mkError DOMAIN (fw_error_key f) []),
     mkWorld (attrs w) d (calls w ++ [fw_event mode f])).
Proof.
  unfold write_field, bind, await, raise, assign, async_write_ha_state.
  destruct (fw_setter client mode f (device w)) as [[|] d]; cbn;
    [|reflexivity].
  now rewrite <- app_assoc.
Qed.

(** A chain whose writes all succeed runs to its end. *)
Lemma run_writes_succeed (mode : option HVACMode.t) (ws : list FieldWrite)
  (w : World D) (d : D) :
  writes_succeed client mode ws (device w) = Some d ->
  run_writes client DOMAIN mode ws w =
  (inl tt, mkWorld (stored ws (attrs w)) d (calls w ++ completed mode ws)).
Proof.
  revert w; induction ws as [|f ws IH]; intros [a d0 c]; cbn.
  - intros [= <-]; unfold ret; now rewrite app_nil_r.
  - unfold bind; rewrite write_field_run; cbn.
    destruct (fw_setter client mode f d0) as [[|] d1]; cbn; [|discriminate].
    intros H.
    match goal with
    | |- run_writes _ _ _ _ ?w' = _ => rewrite (IH w' H)
    end; cbn.
    now rewrite <- !app_assoc.
Qed.

(** A chain stops at its first failing write: the writes before it are
    stored, the failing one is called and nothing after it. *)
Lemma run_writes_fail (mode : option HVACMode.t)
  (pre : list FieldWrite) (f : FieldWrite) (post : list FieldWrite)
  (w : World D) (d : D) :
  writes_succeed client mode pre (device w) = Some d ->
  fst (fw_setter client mode f d) = false ->
  run_writes client DOMAIN mode (pre ++ f :: post) w =
  (inr (mkError DOMAIN (fw_error_key f) []),
   mkWorld (stored pre (attrs w)) (snd (fw_setter client mode f d))
           (calls w ++ completed mode pre ++ [fw_event mode f])).
Proof.
  intros Hpre Hf; rewrite run_writes_app; unfold bind.
  rewrite (run_writes_succeed _ _ _ _ Hpre); cbn.
  unfold bind; rewrite write_field_run; cbn.
  destruct (fw_setter client mode f d) as [ok d1]; cbn in *; subst ok; cbn.
  now rewrite <- app_assoc.
Qed.

(** Every run of a chain is of one of these two kinds. *)
Lemma writes_succeed_or_fail (mode : option HVACMode.t)
  (ws : list FieldWrite) (d0 : D) :
  (exists d, writes_succeed client mode ws d0 = Some d) \/
  (exists pre f post d,
      ws = pre ++ f :: post /\
      writes_succeed client mode pre d0 = Some d /\
      fst (fw_setter client mode f d) = false).
Proof.
  revert d0; induction ws as [|f ws IH]; intros d0; cbn.
  - left; now exists d0.
  - destruct (fw_setter client mode f d0) as [[|] d1] eqn:E.
    + destruct (IH d1) as [[d H]|(pre & g & post & d & -> & H & Hg)].
      * left; now exists d.
      * right; exists (f :: pre), g, post, d; cbn; rewrite E; auto.
    + right; exists [], f, ws, d0; cbn; rewrite E; auto.
Qed.

(** *** What the stored writes leave in the attributes *)

Lemma attr_of_store_same (f : FieldWrite) (a : Attrs) :
  attr_of (fw_field f) (fw_store f a) = Some (fw_temp f).
Proof. unfold fw_store; destruct (fw_field f); reflexivity. Qed.

Lemma attr_of_store_other (f : FieldWrite) (F : Field) (a : Attrs) :
  F <> fw_field f -> attr_of F (fw_store f a) = attr_of F a.
Proof.
  unfold fw_store; destruct (fw_field f), F; intros H;
    try reflexivity; now destruct H.
Qed.

Lemma stored_other (pre : list FieldWrite) (F : Field) (a : Attrs) :
  ~ In F (map fw_field pre) -> attr_of F (stored pre a) = attr_of F a.
Proof.
  revert a; induction pre as [|f pre IH]; intros a H; [reflexivity|].
  cbn in *; unfold stored in *; cbn.
  rewrite IH by tauto.
  apply attr_of_store_other; intros ->; tauto.
Qed.

Lemma stored_same (pre : list FieldWrite) (g : FieldWrite) (a : Attrs) :
  NoDup (map fw_field pre) -> In g pre ->
  attr_of (fw_field g) (stored pre a) = Some (fw_temp g).
Proof.
  revert a; induction pre as [|f pre IH]; intros a ND Hg; [destruct Hg|].
  inversion ND; subst; destruct Hg as [->|Hg]; unfold stored; cbn.
  - fold (stored pre (fw_store g a)).
    rewrite stored_other by assumption.
    apply attr_of_store_same.
  - now apply IH.
Qed.

(** No field occurs twice among the pending writes of a call. *)
Lemma pending_NoDup (kwargs : Kwargs) :
  NoDup (map fw_field (pending kwargs)).
Proof.
  destruct kwargs as [[h|] [l|] [t|]]; unfold pending; cbn;
    try destruct (truthy h); try destruct (truthy l);
    try destruct (truthy t); cbn;
    repeat constructor; cbn; intuition discriminate.
Qed.


Lemma writes_succeed_app (mode : option HVACMode.t)
  (p q : list FieldWrite) (d0 : D) :
  writes_succeed client mode (p ++ q) d0 =
  match writes_succeed client mode p d0 with
  | Some d => writes_succeed client mode q d
  | None => None
  end.
Proof.
  revert d0; induction p as [|f p IH]; intros d0; cbn; [reflexivity|].
  destruct (fw_setter client mode f d0) as [[|] d1]; [apply IH|reflexivity].
Qed.

(** The last write of a chain whose earlier writes succeed. *)
Lemma run_writes_last (mode : option HVACMode.t)
  (earlier : list FieldWrite) (f : FieldWrite) (w : World D) (d : D) :
  writes_succeed client mode earlier (device w) = Some d ->
  let r := run_writes client DOMAIN mode (earlier ++ [f]) w in
  device (snd r) = snd (fw_setter client mode f d) /\
  calls (snd r) =
    calls w ++ completed mode earlier ++
    fw_event mode f ::
      (if fst (fw_setter client mode f d) then [WriteHaState] else []).
Proof.
  intros He r; subst r.
  destruct (fw_setter client mode f d) as [[|] d1] eqn:E; cbn.
  - rewrite (run_writes_succeed mode (earlier ++ [f]) w d1); cbn.
    + split; [reflexivity|].
      unfold completed; rewrite flat_map_app; reflexivity.
    + rewrite writes_succeed_app, He; cbn [writes_succeed].
      now rewrite E.
  - rewrite (run_writes_fail mode earlier f [] w d He)
      by (now rewrite E).
    cbn; rewrite E; cbn; auto.
Qed.

(** *** The claims about [async_set_temperature] *)

(** C2 (as the code has it): the fields of a call are processed one
    after the other in the order [target_temp_high], [target_temp_low],
    [temperature] (the order of [pending]).  Either every pending write
    succeeds, and the calls made are the writes in that order, each
    followed by the state-write signal, with every value stored; or the
    run stops at the first failing write, having stored and signalled
    exactly the writes before it. *)
Theorem set_temperature_order (kwargs : Kwargs) (w : World D) :
  let mode := hvac_mode (attrs w) in
  let r := async_set_temperature client DOMAIN kwargs w in
  (exists d,
      writes_succeed client mode (pending kwargs) (device w) = Some d /\
      r = (inl tt,
           mkWorld (stored (pending kwargs) (attrs w)) d
                   (calls w ++ completed mode (pending kwargs)))) \/
  (exists pre f post d,
      pending kwargs = pre ++ f :: post /\
      writes_succeed client mode pre (device w) = Some d /\
      fst (fw_setter client mode f d) = false /\
      r = (inr (mkError DOMAIN (fw_error_key f) []),
           mkWorld (stored pre (attrs w)) (snd (fw_setter client mode f d))
                   (calls w ++ completed mode pre ++ [fw_event mode f]))).
Proof.
  intros mode r; subst r; rewrite set_temperature_run; fold mode.
  destruct (writes_succeed_or_fail mode (pending kwargs) (device w))
    as [[d H]|(pre & f & post & d & E & H & Hf)].
  - left; exists d; split; [assumption|now apply run_writes_succeed].
  - right; exists pre, f, post, d; repeat split; try assumption.
    rewrite E; now apply run_writes_fail.
Qed.

(** C6: when the call reaches its [temperature] field (the writes of
    the two fields before it, if any, having succeeded and left the
    device at [d]), the value is written with [set_heating_setpoint]
    if the local [hvac_mode] is [HEAT] and with [set_cooling_setpoint]
    for every other [hvac_mode], also an unset one. *)
Theorem set_temperature_target_routing (kwargs : Kwargs) (w : World D)
  (v : number) (d : D) :
  let mode := hvac_mode (attrs w) in
  let earlier :=
    field_write TargetTempHigh (target_temp_high kwargs) ++
    field_write TargetTempLow (target_temp_low kwargs) in
  temperature kwargs = Some v ->
  truthy v = true ->
  writes_succeed client mode earlier (device w) = Some d ->
  let r := async_set_temperature client DOMAIN kwargs w in
  (mode = Some HVACMode.HEAT ->
   device (snd r) = snd (set_heating_setpoint client (int v) d) /\
   calls (snd r) =
     calls w ++ completed mode earlier ++
     SetHeatingSetpoint (int v) ::
       (if fst (set_heating_setpoint client (int v) d)
        then [WriteHaState] else [])) /\
  (mode <> Some HVACMode.HEAT ->
   device (snd r) = snd (set_cooling_setpoint client (int v) d) /\
   calls (snd r) =
     calls w ++ completed mode earlier ++
     SetCoolingSetpoint (int v) ::
       (if fst (set_cooling_setpoint client (int v) d)
        then [WriteHaState] else [])).
Proof.
  intros mode earlier Ht Hv He r.
  set (f := mkFieldWrite Temperature (int v)).
  assert (P : pending kwargs = earlier ++ [f]).
  { unfold pending, earlier; rewrite Ht; cbn; rewrite Hv.
    now rewrite <- app_assoc. }
  assert (R : device (snd r) = snd (fw_setter client mode f d) /\
              calls (snd r) =
                calls w ++ completed mode earlier ++
                fw_event mode f ::
                  (if fst (fw_setter client mode f d)
                   then [WriteHaState] else [])).
  { subst r; rewrite set_temperature_run, P; fold mode.
    now apply run_writes_last. }
  destruct R as [Rd Rc]; unfold fw_setter, fw_event in *; cbn in *.
  split; intros Hm.
  - rewrite Hm in *; cbn in *; auto.
  - assert (Hh : heats mode = false).
    { destruct mode as [[]|]; try reflexivity; now destruct Hm. }
    rewrite Hh in *; auto.
Qed.

(** C8: in a call with several fields, when the writes of the earlier
    fields [pre] succeed and the write of a later field [f] fails, the
    call raises a write error, every earlier field keeps the value
    stored for it, the failed field and the remaining fields [post]
    keep their former values, and the last call made is the failed
    write: nothing is attempted for the remaining fields. *)
Theorem set_temperature_keeps_earlier_fields (kwargs : Kwargs) (w : World D)
  (pre : list FieldWrite) (f : FieldWrite) (post : list FieldWrite) (d : D) :
  let mode := hvac_mode (attrs w) in
  pending kwargs = pre ++ f :: post ->
  writes_succeed client mode pre (device w) = Some d ->
  fst (fw_setter client mode f d) = false ->
  let r := async_set_temperature client DOMAIN kwargs w in
  (exists e, fst r = inr e /\ DeviceWriteError e) /\
  (forall g, In g pre ->
             attr_of (fw_field g) (attrs (snd r)) = Some (fw_temp g)) /\
  (forall g, In g (f :: post) ->
             attr_of (fw_field g) (attrs (snd r)) =
             attr_of (fw_field g) (attrs w)) /\
  calls (snd r) = calls w ++ completed mode pre ++ [fw_event mode f].
Proof.
  intros mode P Hpre Hf r.
  pose proof (pending_NoDup kwargs) as ND.
  rewrite P, map_app in ND.
  subst r; rewrite set_temperature_run, P; fold mode.
  rewrite (run_writes_fail mode pre f post w d Hpre Hf); cbn.
  repeat split.
  - eexists; split; [reflexivity|].
    unfold DeviceWriteError, fw_error_key; cbn.
    destruct (fw_field f); cbn; tauto.
  - intros g Hg; apply stored_same; [|assumption].
    now apply NoDup_app_remove_r in ND.
  - intros g Hg; apply stored_other; intros Hin.
    assert (Hg' : In (fw_field g) (map fw_field (f :: post)))
      by now apply in_map.
    clear - ND Hin Hg'.
    induction (map fw_field pre) as [|x xs IH]; [destruct Hin|].
    cbn in ND; inversion ND; subst.
    destruct Hin as [->|Hin]; [|now apply IH].
    match goal with H : ~ In _ _ |- _ => apply H end.
    apply in_or_app; now right.
Qed.

End SetTemperature.

(** ** Truncation to zero *)






Section FalsyFields.
Context {D : Type}.
Variable client : BryantEvolutionClient D.
Variable DOMAIN : string.


End FalsyFields.

(** ** The mutators *)

Section Mutators.
Context {D : Type}.
Variable client : BryantEvolutionClient D.
Variable DOMAIN : string.

(** C1 (what the code does): [async_set_hvac_mode] called with
    [HEAT_COOL] calls the client's [set_hvac_mode] with the string
    "auto"; when that write succeeds it signals a state write, and the
    mode it stores locally is [AUTO], the value it sent to the device,
    not [HEAT_COOL]. *)
Theorem set_hvac_mode_heat_cool_stores_auto (w : World D) :
  let r := async_set_hvac_mode client DOMAIN HVACMode.HEAT_COOL w in
  (exists rest, calls (snd r) = calls w ++ SetHvacMode "auto" :: rest) /\
  (fst (set_hvac_mode client "auto" (device w)) = true ->
   fst r = inl tt /\
   hvac_mode (attrs (snd r)) = Some HVACMode.AUTO /\
   hvac_mode (attrs (snd r)) <> Some HVACMode.HEAT_COOL /\
   calls (snd r) = calls w ++ [SetHvacMode "auto"; WriteHaState]).
Proof.
  unfold_entity; cbn.
  destruct (set_hvac_mode client "auto" (device w)) as [[|] d]; cbn; split.
  - exists [WriteHaState]; now rewrite <- app_assoc.
  - intros _; rewrite <- app_assoc; repeat split; discriminate.
  - now exists [].
  - discriminate.
Qed.

(** C7: when the device client reports that the write failed, each
    mutator raises a write error and leaves all attributes of the
    entity as they were: [async_set_hvac_mode], [async_set_fan_mode],
    and [async_set_temperature] called with any single field. *)
Theorem failed_write_leaves_state (w : World D) :
  (forall m : HVACMode.t,
      fst (set_hvac_mode client
             (HVACMode.value
                (if HVACMode.eqb m HVACMode.HEAT_COOL then HVACMode.AUTO
                 else m))
             (device w)) = false ->
      fails_unchanged (async_set_hvac_mode client DOMAIN m w) w) /\
  (forall fan : string,
      fst (set_fan_mode client fan (device w)) = false ->
      fails_unchanged (async_set_fan_mode client DOMAIN fan w) w) /\
  (forall v : number,
      truthy v = true ->
      fst (set_cooling_setpoint client (int v) (device w)) = false ->
      fails_unchanged
        (async_set_temperature client DOMAIN (mkKwargs (Some v) None None) w)
        w) /\
  (forall v : number,
      truthy v = true ->
      fst (set_heating_setpoint client (int v) (device w)) = false ->
      fails_unchanged
        (async_set_temperature client DOMAIN (mkKwargs None (Some v) None) w)
        w) /\
  (forall v : number,
      truthy v = true ->
      fst ((if heats (hvac_mode (attrs w))
            then set_heating_setpoint client (int v)
            else set_cooling_setpoint client (int v)) (device w)) = false ->
      fails_unchanged
        (async_set_temperature client DOMAIN (mkKwargs None None (Some v)) w)
        w).
Proof.
  unfold fails_unchanged, DeviceWriteError; repeat split.
  - unfold_entity; cbn.
    destruct (set_hvac_mode client _ (device w)) as [ok d]; cbn in *;
      subst ok; cbn; eexists; split; [reflexivity|cbn; tauto].
  - unfold_entity; cbn.
    destruct (set_hvac_mode client _ (device w)) as [ok d]; cbn in *;
      subst ok; reflexivity.
  - unfold_entity; cbn.
    destruct (set_fan_mode client fan (device w)) as [ok d]; cbn in *;
      subst ok; cbn; eexists; split; [reflexivity|cbn; tauto].
  - unfold_entity; cbn.
    destruct (set_fan_mode client fan (device w)) as [ok d]; cbn in *;
      subst ok; reflexivity.
  - rewrite set_temperature_run; unfold pending; cbn; rewrite H; cbn.
    unfold bind; rewrite write_field_run; unfold fw_setter; cbn.
    destruct (set_cooling_setpoint client (int v) (device w)) as [ok d];
      cbn in *; subst ok; cbn; eexists; split; [reflexivity|cbn; tauto].
  - rewrite set_temperature_run; unfold pending; cbn; rewrite H; cbn.
    unfold bind; rewrite write_field_run; unfold fw_setter; cbn.
    destruct (set_cooling_setpoint client (int v) (device w)) as [ok d];
      cbn in *; subst ok; reflexivity.
  - rewrite set_temperature_run; unfold pending; cbn; rewrite H; cbn.
    unfold bind; rewrite write_field_run; unfold fw_setter; cbn.
    destruct (set_heating_setpoint client (int v) (device w)) as [ok d];
      cbn in *; subst ok; cbn; eexists; split; [reflexivity|cbn; tauto].
  - rewrite set_temperature_run; unfold pending; cbn; rewrite H; cbn.
    unfold bind; rewrite write_field_run; unfold fw_setter; cbn.
    destruct (set_heating_setpoint client (int v) (device w)) as [ok d];
      cbn in *; subst ok; reflexivity.
  - rewrite set_temperature_run; unfold pending; cbn; rewrite H; cbn.
    unfold bind; rewrite write_field_run; unfold fw_setter; cbn.
    destruct ((if heats (hvac_mode (attrs w))
               then set_heating_setpoint client (int v)
               else set_cooling_setpoint client (int v)) (device w))
      as [ok d]; cbn in *; subst ok; cbn;
      eexists; split; [reflexivity|cbn; tauto].
  - rewrite set_temperature_run; unfold pending; cbn; rewrite H; cbn.
    unfold bind; rewrite write_field_run; unfold fw_setter; cbn.
    destruct ((if heats (hvac_mode (attrs w))
               then set_heating_setpoint client (int v)
               else set_cooling_setpoint client (int v)) (device w))
      as [ok d]; cbn in *; subst ok; reflexivity.
Qed.

End Mutators.

(** ** Refresh *)

Lemma parse_mode_heat (m : string) :
  same_mode m "heat" -> parse_mode m = Some HVACMode.HEAT.
Proof. intros H; unfold parse_mode; now rewrite (upper_heat m H). Qed.

Lemma parse_mode_cool (m : string) :
  same_mode m "cool" -> parse_mode m = Some HVACMode.COOL.
Proof. intros H; unfold parse_mode; now rewrite (upper_cool m H). Qed.

Lemma parse_mode_auto (m : string) :
  same_mode m "auto" -> parse_mode m = Some HVACMode.HEAT_COOL.
Proof. intros H; unfold parse_mode; now rewrite (upper_auto m H). Qed.

Lemma parse_mode_off (m : string) :
  same_mode m "off" -> parse_mode m = Some HVACMode.OFF.
Proof. intros H; unfold parse_mode; now rewrite (upper_off m H). Qed.

Lemma parse_mode_none (m : string) :
  parse_mode m = None <-> ~ recognized m.
Proof.
  unfold parse_mode; split.
  - destruct (upper m =? "HEAT")%string eqn:E1; [discriminate|].
    destruct (upper m =? "COOL")%string eqn:E2; [discriminate|].
    destruct (upper m =? "AUTO")%string eqn:E3; [discriminate|].
    destruct (upper m =? "OFF")%string eqn:E4; [discriminate|].
    intros _; now apply recognized_upper.
  - intros H; apply unrecognized_upper in H.
    destruct H as (-> & -> & -> & ->); reflexivity.
Qed.

Lemma parse_mode_range (m : string) (h : HVACMode.t) :
  parse_mode m = Some h ->
  h = HVACMode.HEAT \/ h = HVACMode.COOL \/
  h = HVACMode.HEAT_COOL \/ h = HVACMode.OFF.
Proof.
  unfold parse_mode.
  destruct (upper m =? "HEAT")%string; [intros [= <-]; tauto|].
  destruct (upper m =? "COOL")%string; [intros [= <-]; tauto|].
  destruct (upper m =? "AUTO")%string; [intros [= <-]; tauto|].
  destruct (upper m =? "OFF")%string; [intros [= <-]; tauto|discriminate].
Qed.


Section Refresh.
Context {D : Type}.
Variable client : BryantEvolutionClient D.
Variable DOMAIN : string.

(** [async_update] up to the setpoints, in closed form. *)
Lemma readings_run (w : World D) :
  async_update_readings client DOMAIN w =
  let (t, d1) := read_current_temperature client (device w) in
  let (f, d2) := read_fan_mode client d1 in
  let (ma, d3) := read_hvac_mode client d2 in
  let fan := option_map lower f in
  let act := hvac_action (attrs w) in
  let a0 := mkAttrs t fan (hvac_mode (attrs w)) None None None act in
  let c0 := calls w ++ [ReadCurrentTemperature; ReadFanMode; ReadHvacMode] in
  match ma with
  | None =>
      (inr (mkError DOMAIN "failed_to_read_hvac_mode" []), mkWorld a0 d3 c0)
  | Some (m, _) =>
      match parse_mode m with
      | None =>
          (inr (mkError DOMAIN "failed_to_parse_hvac_mode"
                        [("mode", PText m)]),
           mkWorld a0 d3 c0)
      | Some HVACMode.HEAT =>
          let (sp, d4) := read_heating_setpoint client d3 in
          (inl tt,
           mkWorld (mkAttrs t fan (Some HVACMode.HEAT) sp None None act)
                   d4 (c0 ++ [ReadHeatingSetpoint]))
      | Some HVACMode.COOL =>
          let (sp, d4) := read_cooling_setpoint client d3 in
          (inl tt,
           mkWorld (mkAttrs t fan (Some HVACMode.COOL) sp None None act)
                   d4 (c0 ++ [ReadCoolingSetpoint]))
      | Some HVACMode.HEAT_COOL =>
          let (hi, d4) := read_cooling_setpoint client d3 in
          let (lo, d5) := read_heating_setpoint client d4 in
          (inl tt,
           mkWorld (mkAttrs t fan (Some HVACMode.HEAT_COOL) None hi lo act)
                   d5 (c0 ++ [ReadCoolingSetpoint; ReadHeatingSetpoint]))
      | Some HVACMode.OFF =>
          (inl tt,
           mkWorld (mkAttrs t fan (Some HVACMode.OFF) None None None act)
                   d3 c0)
      | Some other =>
          (inl tt,
           mkWorld (mkAttrs t fan (Some other) None None None act)
                   d3 (c0 ++ [LogError]))
      end
  end.
Proof.
  unfold_entity; unfold parse_mode.
  destruct (read_current_temperature client (device w)) as [t d1]; cbn.
  destruct (read_fan_mode client d1) as [[f|] d2]; cbn;
    destruct (read_hvac_mode client d2) as [[[m a]|] d3]; cbn;
    rewrite <- ?app_assoc; cbn; try reflexivity;
    destruct (upper m =? "HEAT")%string; cbn;
    try (destruct (read_heating_setpoint client d3) as [sp d4]; cbn;
         rewrite <- ?app_assoc; reflexivity);
    destruct (upper m =? "COOL")%string; cbn;
    try (destruct (read_cooling_setpoint client d3) as [sp d4]; cbn;
         rewrite <- ?app_assoc; reflexivity);
    destruct (upper m =? "AUTO")%string; cbn;
    try (destruct (read_cooling_setpoint client d3) as [hi d4]; cbn;
         destruct (read_heating_setpoint client d4) as [lo d5]; cbn;
         rewrite <- ?app_assoc; reflexivity);
    destruct (upper m =? "OFF")%string; cbn; reflexivity.
Qed.

(** [_read_hvac_action] in closed form. *)
Lemma action_run (w : World D) :
  _read_hvac_action client DOMAIN w =
  let (ma, d) := read_hvac_mode client (device w) in
  let w' := mkWorld (attrs w) d (calls w ++ [ReadHvacMode]) in
  let cur := current_temperature (attrs w) in
  let low := target_temperature_low (attrs w) in
  match ma with
  | None => (inr (mkError DOMAIN "failed_to_read_hvac_action" []), w')
  | Some (m, false) => (inl HVACAction.OFF, w')
  | Some (m, true) =>
      match resolve_action m cur low with
      | Some act => (inl act, w')
      | None => (inr (unresolved_action DOMAIN m true cur low), w')
      end
  end.
Proof.
  unfold_entity; unfold resolve_action, unresolved_action.
  destruct (read_hvac_mode client (device w)) as [[[m [|]]|] d]; cbn;
    try reflexivity.
  destruct (upper m =? "HEAT")%string; [reflexivity|].
  destruct (upper m =? "COOL")%string; [reflexivity|].
  destruct (upper m =? "OFF")%string; [reflexivity|].
  destruct (upper m =? "AUTO")%string; [|reflexivity].
  destruct (current_temperature (attrs w)) as [c|]; [|reflexivity].
  destruct (target_temperature_low (attrs w)) as [l|]; [|reflexivity].
  destruct (c >? l); reflexivity.
Qed.

(** [async_update] is its readings followed by the action. *)
Lemma update_run (w : World D) :
  async_update client DOMAIN w =
  match async_update_readings client DOMAIN w with
  | (inl _, w1) =>
      match _read_hvac_action client DOMAIN w1 with
      | (inl act, w2) =>
          (inl tt,
           mkWorld (set_hvac_action (Some act) (attrs w2)) (device w2)
                   (calls w2))
      | (inr e, w2) => (inr e, w2)
      end
  | (inr e, w1) => (inr e, w1)
  end.
Proof.
  unfold async_update, bind, assign.
  destruct (async_update_readings client DOMAIN w) as [[[]|e] w1];
    [|reflexivity].
  destruct (_read_hvac_action client DOMAIN w1) as [[act|e] w2]; reflexivity.
Qed.

(** C3: once a refresh has read its setpoints, the action it derives
    from the device's answer [(m, active)] to the second mode read
    is: off when the device is inactive, whatever the mode; otherwise
    heating for heat, cooling for cool, off for off; for auto with
    the current temperature and the low target both known, cooling if
    the current temperature is above the low target and heating if
    not; and for auto with one of the two unknown, a read error that
    carries both readings. *)
Theorem refresh_hvac_action (w w1 : World D) (m : string) (active : bool) :
  async_update_readings client DOMAIN w = (inl tt, w1) ->
  fst (read_hvac_mode client (device w1)) = Some (m, active) ->
  let cur := current_temperature (attrs w1) in
  let low := target_temperature_low (attrs w1) in
  let r := async_update client DOMAIN w in
  let derived (act : HVACAction.t) :=
    fst r = inl tt /\ hvac_action (attrs (snd r)) = Some act in
  (active = false -> derived HVACAction.OFF) /\
  (active = true -> same_mode m "heat" -> derived HVACAction.HEATING) /\
  (active = true -> same_mode m "cool" -> derived HVACAction.COOLING) /\
  (active = true -> same_mode m "off" -> derived HVACAction.OFF) /\
  (active = true -> same_mode m "auto" ->
   forall c l, cur = Some c -> low = Some l ->
               derived (if c >? l then HVACAction.COOLING
                        else HVACAction.HEATING)) /\
  (active = true -> same_mode m "auto" -> cur = None \/ low = None ->
   exists e,
     fst r = inr e /\ DeviceReadError e /\
     placeholder_of "mode_and_active" (translation_placeholders e) =
       Some (PModeAndActive m active) /\
     placeholder_of "current_temperature" (translation_placeholders e) =
       Some (PText (str cur)) /\
     placeholder_of "target_temperature_low" (translation_placeholders e) =
       Some (PText (str low))).
Proof.
  intros H1 H2 cur low r derived; subst r derived.
  rewrite update_run, H1, action_run.
  destruct (read_hvac_mode client (device w1)) as [ma d]; cbn in H2;
    subst ma; fold cur low.
  unfold resolve_action.
  split; [intros ->; split; reflexivity|].
  split; [intros -> Hm; rewrite (upper_heat m Hm); split; reflexivity|].
  split; [intros -> Hm; rewrite (upper_cool m Hm); split; reflexivity|].
  split; [intros -> Hm; rewrite (upper_off m Hm); split; reflexivity|].
  split.
  { intros -> Hm c l -> ->; rewrite (upper_auto m Hm); cbn.
    destruct (c >? l); split; reflexivity. }
  intros -> Hm Hu; rewrite (upper_auto m Hm); cbn.
  exists (unresolved_action DOMAIN m true cur low).
  assert (E : match cur, low with
              | Some c, Some l =>
                  Some (if c >? l then HVACAction.COOLING
                        else HVACAction.HEATING)
              | _, _ => None
              end = None).
  { destruct Hu as [-> | ->]; [|destruct cur]; reflexivity. }
  rewrite E; cbn; unfold DeviceReadError; cbn; tauto.
Qed.

(** Deriving the action leaves the mode and the setpoints as the
    readings set them, and makes one more mode read. *)
Lemma update_frame (w w1 : World D) :
  async_update_readings client DOMAIN w = (inl tt, w1) ->
  let a := attrs (snd (async_update client DOMAIN w)) in
  calls (snd (async_update client DOMAIN w)) = calls w1 ++ [ReadHvacMode] /\
  hvac_mode a = hvac_mode (attrs w1) /\
  target_temperature a = target_temperature (attrs w1) /\
  target_temperature_high a = target_temperature_high (attrs w1) /\
  target_temperature_low a = target_temperature_low (attrs w1).
Proof.
  intros H; cbv zeta; rewrite update_run, H, action_run.
  destruct (read_hvac_mode client (device w1)) as [[[m [|]]|] d]; cbn;
    try destruct (resolve_action m _ _); cbn; auto.
Qed.

(** C5: the mode the device reports at the first mode read of a
    refresh decides which setpoints are read (from the device as that
    read left it) and where they go: heat reads the heating setpoint
    into [target_temperature]; cool reads the cooling setpoint into
    [target_temperature]; auto, which is stored as [HEAT_COOL], reads
    the cooling setpoint into [target_temperature_high] and then the
    heating setpoint into [target_temperature_low]; off reads no
    setpoint.  The setpoint attributes not named are left absent. *)
Theorem refresh_setpoints (w : World D) (m : string) (active : bool) :
  fst (polled_mode client (device w)) = Some (m, active) ->
  let d := snd (polled_mode client (device w)) in
  let r := async_update client DOMAIN w in
  let a := attrs (snd r) in
  let polled := [ReadCurrentTemperature; ReadFanMode; ReadHvacMode] in
  (same_mode m "heat" ->
   hvac_mode a = Some HVACMode.HEAT /\
   target_temperature a = fst (read_heating_setpoint client d) /\
   target_temperature_high a = None /\ target_temperature_low a = None /\
   calls (snd r) =
     calls w ++ polled ++ [ReadHeatingSetpoint; ReadHvacMode]) /\
  (same_mode m "cool" ->
   hvac_mode a = Some HVACMode.COOL /\
   target_temperature a = fst (read_cooling_setpoint client d) /\
   target_temperature_high a = None /\ target_temperature_low a = None /\
   calls (snd r) =
     calls w ++ polled ++ [ReadCoolingSetpoint; ReadHvacMode]) /\
  (same_mode m "auto" ->
   hvac_mode a = Some HVACMode.HEAT_COOL /\
   target_temperature a = None /\
   target_temperature_high a = fst (read_cooling_setpoint client d) /\
   target_temperature_low a =
     fst (read_heating_setpoint client
            (snd (read_cooling_setpoint client d))) /\
   calls (snd r) =
     calls w ++ polled ++
     [ReadCoolingSetpoint; ReadHeatingSetpoint; ReadHvacMode]) /\
  (same_mode m "off" ->
   hvac_mode a = Some HVACMode.OFF /\
   target_temperature a = None /\
   target_temperature_high a = None /\ target_temperature_low a = None /\
   calls (snd r) = calls w ++ polled ++ [ReadHvacMode]).
Proof.
  intros H d r a polled; subst d r a polled.
  pose proof (readings_run w) as R; unfold polled_mode in *.
  destruct (read_current_temperature client (device w)) as [t d1];
    cbn in *.
  destruct (read_fan_mode client d1) as [f d2]; cbn in *.
  destruct (read_hvac_mode client d2) as [ma d3]; cbn in *; subst ma.
  split; [|split; [|split]]; intros Hm.
  - rewrite (parse_mode_heat m Hm) in R.
    destruct (read_heating_setpoint client d3) as [sp d4]; cbn.
    destruct (update_frame w _ R) as (-> & -> & -> & -> & ->); cbn.
    rewrite <- !app_assoc; repeat split.
  - rewrite (parse_mode_cool m Hm) in R.
    destruct (read_cooling_setpoint client d3) as [sp d4]; cbn.
    destruct (update_frame w _ R) as (-> & -> & -> & -> & ->); cbn.
    rewrite <- !app_assoc; repeat split.
  - rewrite (parse_mode_auto m Hm) in R.
    destruct (read_cooling_setpoint client d3) as [hi d4]; cbn.
    destruct (read_heating_setpoint client d4) as [lo d5]; cbn.
    destruct (update_frame w _ R) as (-> & -> & -> & -> & ->); cbn.
    rewrite <- !app_assoc; repeat split.
  - rewrite (parse_mode_off m Hm) in R.
    destruct (update_frame w _ R) as (-> & -> & -> & -> & ->); cbn.
    rewrite <- !app_assoc; repeat split.
Qed.

(** *** When a refresh raises *)

Lemma readings_result (w : World D) :
  fst (async_update_readings client DOMAIN w) =
  match fst (polled_mode client (device w)) with
  | None => inr (mkError DOMAIN "failed_to_read_hvac_mode" [])
  | Some (m, _) =>
      match parse_mode m with
      | None =>
          inr (mkError DOMAIN "failed_to_parse_hvac_mode"
                       [("mode", PText m)])
      | Some _ => inl tt
      end
  end.
Proof.
  rewrite readings_run; unfold polled_mode.
  destruct (read_current_temperature client (device w)) as [t d1]; cbn.
  destruct (read_fan_mode client d1) as [f d2]; cbn.
  destruct (read_hvac_mode client d2) as [[[m a]|] d3]; cbn;
    [|reflexivity].
  destruct (parse_mode m) as [[]|]; cbn; try reflexivity;
    repeat match goal with
           | |- context [let (_, _) := ?x in _] => destruct x
           end; reflexivity.
Qed.


Lemma update_result (w : World D) :
  fst (async_update client DOMAIN w) =
  match fst (async_update_readings client DOMAIN w) with
  | inl _ =>
      match fst (_read_hvac_action client DOMAIN
                   (snd (async_update_readings client DOMAIN w))) with
      | inl _ => inl tt
      | inr e => inr e
      end
  | inr e => inr e
  end.
Proof.
  rewrite update_run.
  destruct (async_update_readings client DOMAIN w) as [[[]|e] w1]; cbn;
    [|reflexivity].
  destruct (_read_hvac_action client DOMAIN w1) as [[act|e] w2]; reflexivity.
Qed.


(** C9 (as the code has it): after a successful refresh the mode is
    one of heat, cool, heat_cool, off, and the setpoint groups hold
    what the device answered to the reads the mode selects: in heat
    the single target is the answer to the heating setpoint read and
    in cool the answer to the cooling setpoint read, the range being
    absent; in heat_cool the high and the low target are the answers
    to the cooling and the heating setpoint read, the single target
    being absent; in off all three are absent.  So exactly one group
    is populated, and the other absent, exactly when the mode is not
    off and the device answered the setpoint reads of the mode. *)
Theorem refresh_setpoint_groups (w : World D) :
  let r := async_update client DOMAIN w in
  let a := attrs (snd r) in
  let d := snd (polled_mode client (device w)) in
  let heating := fst (read_heating_setpoint client d) in
  let cooling := fst (read_cooling_setpoint client d) in
  let heating_after :=
    fst (read_heating_setpoint client
           (snd (read_cooling_setpoint client d))) in
  returns r ->
  (hvac_mode a = Some HVACMode.HEAT \/ hvac_mode a = Some HVACMode.COOL \/
   hvac_mode a = Some HVACMode.HEAT_COOL \/
   hvac_mode a = Some HVACMode.OFF) /\
  (hvac_mode a = Some HVACMode.HEAT ->
   target_temperature a = heating /\ range_absent a) /\
  (hvac_mode a = Some HVACMode.COOL ->
   target_temperature a = cooling /\ range_absent a) /\
  (hvac_mode a = Some HVACMode.HEAT_COOL ->
   target_temperature_high a = cooling /\
   target_temperature_low a = heating_after /\ single_absent a) /\
  (hvac_mode a = Some HVACMode.OFF -> single_absent a /\ range_absent a) /\
  (exactly_one_group a <->
   (hvac_mode a = Some HVACMode.HEAT /\ heating <> None) \/
   (hvac_mode a = Some HVACMode.COOL /\ cooling <> None) \/
   (hvac_mode a = Some HVACMode.HEAT_COOL /\
    cooling <> None /\ heating_after <> None)).
Proof.
  cbv zeta.
  unfold exactly_one_group, single_populated, range_populated,
    single_absent, range_absent.
  intros [u Hu]; rewrite update_result in Hu.
  destruct (async_update_readings client DOMAIN w) as [[[]|e] w1] eqn:R;
    cbn in Hu; [|discriminate].
  destruct (update_frame w w1 R) as (_ & -> & -> & -> & ->).
  revert R; clear Hu; unfold polled_mode; rewrite readings_run.
  destruct (read_current_temperature client (device w)) as [t d1]; cbn.
  destruct (read_fan_mode client d1) as [f d2]; cbn.
  destruct (read_hvac_mode client d2) as [[[m act]|] d3]; cbn;
    [|discriminate].
  destruct (parse_mode m) as [h|] eqn:P; [|discriminate].
  destruct (parse_mode_range m h P) as [-> | [-> | [-> | ->]]].
  - destruct (read_heating_setpoint client d3) as [sp d4]; cbn.
    intros [= <-]; cbn.
    repeat split; intros; try discriminate; try tauto.
    intuition discriminate.
  - destruct (read_cooling_setpoint client d3) as [sp d4]; cbn.
    intros [= <-]; cbn.
    repeat split; intros; try discriminate; try tauto.
    intuition discriminate.
  - destruct (read_cooling_setpoint client d3) as [hi d4]; cbn.
    destruct (read_heating_setpoint client d4) as [lo d5]; cbn.
    intros [= <-]; cbn.
    repeat split; intros; try discriminate; try tauto.
    intuition discriminate.
  - intros [= <-]; cbn.
    repeat split; intros; try discriminate; try tauto.
    intuition discriminate.
Qed.

End Refresh.

(** ** The entity on the simulated thermostat *)

(** C1 on a thermostat that accepts the write: "auto" is sent, and
    [AUTO] is what the entity then holds as its mode. *)
Lemma set_hvac_mode_heat_cool_witness :
  let w := fresh switched_off in
  let r := async_set_hvac_mode thermostat domain HVACMode.HEAT_COOL w in
  fst (set_hvac_mode thermostat "auto" (device w)) = true /\
  fst r = inl tt /\
  hvac_mode (attrs (snd r)) = Some HVACMode.AUTO /\
  hvac_mode (attrs (snd r)) <> Some HVACMode.HEAT_COOL /\
  calls (snd r) = [SetHvacMode "auto"; WriteHaState].
Proof.
  split; [reflexivity|].
  exact (proj2 (set_hvac_mode_heat_cool_stores_auto
                  thermostat domain (fresh switched_off)) eq_refl).
Defined.

(** C2: with all three fields supplied, the cooling setpoint for
    [target_temp_high] is written first and the write for
    [temperature] comes last, not first. *)
Lemma set_temperature_not_in_spec_order :
  let w := in_mode HVACMode.COOL (cooling_74 []) in
  let r := async_set_temperature thermostat domain all_three_fields w in
  calls (snd r) =
    [SetCoolingSetpoint 78; WriteHaState;
     SetHeatingSetpoint 68; WriteHaState;
     SetCoolingSetpoint 72; WriteHaState] /\
  calls (snd r) <>
    calls w ++
    completed (hvac_mode (attrs w)) (spec_order_pending all_three_fields).
Proof. split; [reflexivity|discriminate]. Defined.

(** C3 on the specification's example: auto, active, 72 degrees over a
    low target of 70, so cooling. *)
Lemma refresh_hvac_action_witness :
  let w := fresh auto_72_70 in
  let r := async_update thermostat domain w in
  fst r = inl tt /\ hvac_action (attrs (snd r)) = Some HVACAction.COOLING.
Proof.
  assert (R : async_update_readings thermostat domain (fresh auto_72_70) =
              (inl tt,
               snd (async_update_readings thermostat domain
                      (fresh auto_72_70))))
    by (vm_compute; reflexivity).
  assert (S : fst (read_hvac_mode thermostat
                     (device (snd (async_update_readings thermostat domain
                                     (fresh auto_72_70))))) =
              Some ("auto", true))
    by (vm_compute; reflexivity).
  destruct (refresh_hvac_action thermostat domain _ _ "auto" true R S)
    as (_ & _ & _ & _ & H & _).
  apply (H eq_refl eq_refl 72 70); vm_compute; reflexivity.
Defined.



(** C5 on a thermostat in heat mode with setpoints 70 and 78. *)
Lemma refresh_setpoints_witness :
  let r := async_update thermostat domain (fresh heating_66) in
  let a := attrs (snd r) in
  hvac_mode a = Some HVACMode.HEAT /\
  target_temperature a = Some 70 /\
  target_temperature_high a = None /\ target_temperature_low a = None /\
  calls (snd r) =
    [ReadCurrentTemperature; ReadFanMode; ReadHvacMode;
     ReadHeatingSetpoint; ReadHvacMode].
Proof.
  exact (proj1 (refresh_setpoints thermostat domain (fresh heating_66)
                  "Heat" true eq_refl) eq_refl).
Defined.

(** C6 on the specification's example: a target of 75 in heat mode
    goes to the heating setpoint. *)
Lemma set_temperature_target_routing_witness :
  let w := in_mode HVACMode.HEAT heating_66 in
  let r := async_set_temperature thermostat domain
             (only_temperature (Int 75)) w in
  device (snd r) = snd (set_heating_setpoint thermostat 75 heating_66) /\
  calls (snd r) = [SetHeatingSetpoint 75; WriteHaState].
Proof.
  exact (proj1 (set_temperature_target_routing thermostat domain
                  (only_temperature (Int 75))
                  (in_mode HVACMode.HEAT heating_66) (Int 75) heating_66
                  eq_refl eq_refl eq_refl) eq_refl).
Defined.

(** C7 on a thermostat that rejects the write. *)
Lemma failed_write_leaves_state_witness :
  let w := in_mode HVACMode.COOL (cooling_74 [false]) in
  fails_unchanged (async_set_hvac_mode thermostat domain HVACMode.HEAT w) w /\
  fails_unchanged (async_set_fan_mode thermostat domain "HIGH" w) w /\
  fails_unchanged
    (async_set_temperature thermostat domain
       (mkKwargs (Some (Int 80)) None None) w) w /\
  fails_unchanged
    (async_set_temperature thermostat domain
       (mkKwargs None (Some (Int 65)) None) w) w /\
  fails_unchanged
    (async_set_temperature thermostat domain (only_temperature (Int 75)) w)
    w.
Proof.
  destruct (failed_write_leaves_state thermostat domain
              (in_mode HVACMode.COOL (cooling_74 [false])))
    as (H1 & H2 & H3 & H4 & H5).
  split; [apply (H1 HVACMode.HEAT); reflexivity|].
  split; [apply (H2 "HIGH"); reflexivity|].
  split; [apply (H3 (Int 80)); reflexivity|].
  split; [apply (H4 (Int 65)); reflexivity|].
  apply (H5 (Int 75)); reflexivity.
Defined.

(** C8 on a thermostat that takes the first write and rejects the
    second: the high target stays stored, the low target and the
    single target are untouched, and the last call is the failed
    write. *)
Lemma set_temperature_keeps_earlier_fields_witness :
  let w := in_mode HVACMode.COOL (cooling_74 [true; false]) in
  let r := async_set_temperature thermostat domain all_three_fields w in
  (exists e, fst r = inr e /\ DeviceWriteError e) /\
  target_temperature_high (attrs (snd r)) = Some 78 /\
  target_temperature_low (attrs (snd r)) = None /\
  target_temperature (attrs (snd r)) = None /\
  calls (snd r) =
    [SetCoolingSetpoint 78; WriteHaState; SetHeatingSetpoint 68].
Proof.
  pose proof (set_temperature_keeps_earlier_fields thermostat domain
                all_three_fields
                (in_mode HVACMode.COOL (cooling_74 [true; false]))
                [mkFieldWrite TargetTempHigh 78]
                (mkFieldWrite TargetTempLow 68)
                [mkFieldWrite Temperature 72]
                (snd (set_cooling_setpoint thermostat 78
                        (cooling_74 [true; false])))
                eq_refl eq_refl eq_refl)
    as (H1 & H2 & H3 & H4).
  split; [exact H1|].
  split; [exact (H2 _ (or_introl eq_refl))|].
  split; [exact (H3 _ (or_introl eq_refl))|].
  split; [exact (H3 _ (or_intror (or_introl eq_refl)))|exact H4].
Defined.

(** C9: a refresh of a thermostat that is switched off succeeds and
    populates neither setpoint group; and so does a refresh of a
    thermostat in heat mode that does not answer the read of its
    heating setpoint. *)
Lemma refresh_off_populates_no_group :
  let r := async_update thermostat domain (fresh switched_off) in
  let r' := async_update thermostat domain (fresh heat_no_setpoint) in
  (returns r /\
   hvac_mode (attrs (snd r)) = Some HVACMode.OFF /\
   ~ exactly_one_group (attrs (snd r))) /\
  (returns r' /\
   hvac_mode (attrs (snd r')) = Some HVACMode.HEAT /\
   ~ exactly_one_group (attrs (snd r'))).
Proof.
  split.
  - split; [exists tt; vm_compute; reflexivity|].
    split; [vm_compute; reflexivity|].
    intros [[H _]|[[H _] _]]; apply H; vm_compute; reflexivity.
  - split; [exists tt; vm_compute; reflexivity|].
    split; [vm_compute; reflexivity|].
    intros [[H _]|[[H _] _]]; apply H; vm_compute; reflexivity.
Defined.

(** C9, amended, on the thermostat in heat mode, which answers the
    read of its heating setpoint with 70. *)
Lemma refresh_setpoint_groups_witness :
  let a := attrs (snd (async_update thermostat domain (fresh heating_66))) in
  target_temperature a = Some 70 /\ range_absent a /\ exactly_one_group a.
Proof.
  assert (R : returns (async_update thermostat domain (fresh heating_66)))
    by (exists tt; vm_compute; reflexivity).
  destruct (refresh_setpoint_groups thermostat domain (fresh heating_66) R)
    as (_ & H & _ & _ & _ & G).
  assert (M : hvac_mode (attrs (snd (async_update thermostat domain
                                       (fresh heating_66)))) =
              Some HVACMode.HEAT) by (vm_compute; reflexivity).
  destruct (H M) as [T A].
  split; [rewrite T; vm_compute; reflexivity|]; split; [exact A|].
  apply G; left; split; [exact M|vm_compute; discriminate].
Defined.



(** * Further properties *)

(** ** Polling *)

Lemma lower_lower_ascii (c : ascii) :
  lower_ascii (lower_ascii c) = lower_ascii c.
Proof. destruct c as [[] [] [] [] [] [] [] []]; reflexivity. Qed.

Lemma lower_lower (s : string) : lower (lower s) = lower s.
Proof.
  induction s as [|c r IH]; simpl; [reflexivity|].
  now rewrite lower_lower_ascii, IH.
Qed.

Lemma parse_mode_declared (m : string) (h : HVACMode.t) :
  parse_mode m = Some h -> In h _attr_hvac_modes.
Proof.
  unfold parse_mode, _attr_hvac_modes.
  destruct (upper m =? "HEAT")%string; [intros [= <-]; cbn; tauto|].
  destruct (upper m =? "COOL")%string; [intros [= <-]; cbn; tauto|].
  destruct (upper m =? "AUTO")%string; [intros [= <-]; cbn; tauto|].
  destruct (upper m =? "OFF")%string; [intros [= <-]; cbn; tauto|].
  discriminate.
Qed.

Section Polling.
Context {D : Type}.
Variable client : BryantEvolutionClient D.
Variable DOMAIN : string.

(** The world after the readings part of a refresh, whatever its
    outcome: the fresh temperature and fan mode, and the calls made so
    far, all of them reads. *)
Lemma readings_always (w : World D) :
  let r := async_update_readings client DOMAIN w in
  let t := read_current_temperature client (device w) in
  current_temperature (attrs (snd r)) = fst t /\
  fan_mode (attrs (snd r)) =
    option_map lower (fst (read_fan_mode client (snd t))) /\
  hvac_action (attrs (snd r)) = hvac_action (attrs w) /\
  exists sp,
    calls (snd r) =
      calls w ++ [ReadCurrentTemperature; ReadFanMode; ReadHvacMode] ++ sp /\
    forallb is_read sp = true /\ (List.length sp <= 2)%nat.
Proof.
  cbv zeta; rewrite readings_run.
  destruct (read_current_temperature client (device w)) as [t d1]; cbn.
  destruct (read_fan_mode client d1) as [f d2]; cbn.
  destruct (read_hvac_mode client d2) as [[[m act]|] d3]; cbn.
  - destruct (parse_mode m) as [h|] eqn:P.
    + apply parse_mode_declared in P.
      destruct P as [<- | [<- | [<- | [<- | []]]]].
      * destruct (read_heating_setpoint client d3) as [sp d4]; cbn.
        repeat split; exists [ReadHeatingSetpoint];
          rewrite <- app_assoc; cbn; repeat split; lia.
      * destruct (read_cooling_setpoint client d3) as [sp d4]; cbn.
        repeat split; exists [ReadCoolingSetpoint];
          rewrite <- app_assoc; cbn; repeat split; lia.
      * destruct (read_cooling_setpoint client d3) as [hi d4]; cbn.
        destruct (read_heating_setpoint client d4) as [lo d5]; cbn.
        repeat split; exists [ReadCoolingSetpoint; ReadHeatingSetpoint];
          rewrite <- app_assoc; cbn; repeat split; lia.
      * repeat split; exists []; cbn; repeat split; lia.
    + repeat split; exists []; cbn; repeat split; lia.
  - repeat split; exists []; cbn; repeat split; lia.
Qed.

(** The action part of a refresh touches no attribute and makes one
    read. *)
Lemma action_always (w : World D) :
  let r := _read_hvac_action client DOMAIN w in
  attrs (snd r) = attrs w /\ calls (snd r) = calls w ++ [ReadHvacMode].
Proof.
  cbv zeta; rewrite action_run.
  destruct (read_hvac_mode client (device w)) as [[[m [|]]|] d]; cbn;
    try (split; reflexivity).
  destruct (resolve_action m _ _); split; reflexivity.
Qed.

(** X1: a refresh only ever reads: every call it adds is one of the
    five reads of the client, it begins with the reads of the current
    temperature, the fan mode and the mode, and it makes at most six
    calls; it never writes to the device, never signals a state write,
    and never reaches the branch that logs an unknown mode. *)
Theorem refresh_only_reads (w : World D) :
  let r := async_update client DOMAIN w in
  exists rest,
    calls (snd r) =
      calls w ++ [ReadCurrentTemperature; ReadFanMode; ReadHvacMode] ++ rest /\
    forallb is_read rest = true /\
    ~ In LogError rest /\
    (List.length rest <= 3)%nat.
Proof.
  cbv zeta; rewrite update_run.
  destruct (readings_always w) as (_ & _ & _ & sp & Hc & Hr & Hl).
  assert (NL : forall l, forallb is_read l = true -> ~ In LogError l).
  { intros l H N; rewrite forallb_forall in H; apply H in N; discriminate. }
  destruct (async_update_readings client DOMAIN w) as [[[]|e] w1]; cbn in *.
  - destruct (action_always w1) as [_ Ha].
    destruct (_read_hvac_action client DOMAIN w1) as [[act|e] w2];
      cbn in *; rewrite Ha, Hc; exists (sp ++ [ReadHvacMode]);
      rewrite <- !app_assoc; cbn;
      (split; [reflexivity|]);
      assert (R : forallb is_read (sp ++ [ReadHvacMode]) = true)
        by (rewrite forallb_app, Hr; reflexivity);
      (split; [exact R|]); (split; [now apply NL|]);
      rewrite length_app; cbn; lia.
  - exists sp; split; [exact Hc|]; split; [exact Hr|].
    split; [now apply NL|lia].
Qed.

(** What the action part of a refresh leaves of its readings part. *)
Lemma update_keeps_readings (w : World D) :
  let r1 := async_update_readings client DOMAIN w in
  let r := async_update client DOMAIN w in
  current_temperature (attrs (snd r)) = current_temperature (attrs (snd r1)) /\
  fan_mode (attrs (snd r)) = fan_mode (attrs (snd r1)) /\
  hvac_mode (attrs (snd r)) = hvac_mode (attrs (snd r1)) /\
  target_temperature (attrs (snd r)) = target_temperature (attrs (snd r1)) /\
  target_temperature_high (attrs (snd r)) =
    target_temperature_high (attrs (snd r1)) /\
  target_temperature_low (attrs (snd r)) =
    target_temperature_low (attrs (snd r1)) /\
  (raises r -> hvac_action (attrs (snd r)) = hvac_action (attrs w)).
Proof.
  cbv zeta; rewrite update_run.
  destruct (readings_always w) as (_ & _ & Ha & _).
  destruct (async_update_readings client DOMAIN w) as [[[]|e] w1]; cbn in *.
  - destruct (action_always w1) as [Hb _].
    destruct (_read_hvac_action client DOMAIN w1) as [[act|e] w2];
      cbn in *; rewrite Hb; repeat split; try assumption;
      intros [x H]; try discriminate; assumption.
  - repeat split; intros; assumption.
Qed.

(** X2: a refresh that returns has overwritten every attribute: its
    outcome, the device it leaves and, when it returns, all attributes
    are the same whatever the attributes were before; nothing of the
    former state survives a successful poll. *)
Theorem refresh_forgets_attributes (a a' : Attrs) (d : D)
  (c c' : list Event) :
  let r := async_update client DOMAIN (mkWorld a d c) in
  let r' := async_update client DOMAIN (mkWorld a' d c') in
  fst r = fst r' /\ device (snd r) = device (snd r') /\
  (returns r -> attrs (snd r) = attrs (snd r')).
Proof.
  cbv zeta; rewrite !update_run, !readings_run; cbn.
  destruct (read_current_temperature client d) as [t d1].
  destruct (read_fan_mode client d1) as [f d2].
  destruct (read_hvac_mode client d2) as [[[m act]|] d3]; cbn;
    [|repeat split; intros [x H]; discriminate].
  destruct (parse_mode m) as [h|] eqn:P;
    [|repeat split; intros [x H]; discriminate].
  destruct (parse_mode_range m h P) as [-> | [-> | [-> | ->]]];
    repeat match goal with
      | |- context [read_heating_setpoint client ?x] =>
          destruct (read_heating_setpoint client x) as [? ?]
      | |- context [read_cooling_setpoint client ?x] =>
          destruct (read_cooling_setpoint client x) as [? ?]
      end;
    rewrite !action_run; cbn;
    match goal with
    | |- context [read_hvac_mode client ?x] =>
        destruct (read_hvac_mode client x) as [[[m2 [|]]|] dx]
    end; cbn;
    try match goal with
      | |- context [resolve_action ?x ?y ?z] =>
          destruct (resolve_action x y z)
      end; cbn;
    repeat split; try (intros [x H]; discriminate).
Qed.

(** X3: what a refresh that raises leaves behind.  It never assigns
    [hvac_action]; and when it is the first mode read that fails (no
    answer, or an ASCII mode string that is not recognized), the
    refresh raises, the mode is the one held before, the three
    setpoint attributes have been cleared, and the calls made are the
    three first reads. *)
Theorem refresh_failure_state (w : World D) :
  let first := fst (polled_mode client (device w)) in
  let r := async_update client DOMAIN w in
  let a := attrs (snd r) in
  (raises r -> hvac_action a = hvac_action (attrs w)) /\
  (first = None \/
   (exists m act,
       first = Some (m, act) /\ is_ascii m = true /\ ~ recognized m) ->
   raises r /\
   hvac_mode a = hvac_mode (attrs w) /\
   target_temperature a = None /\
   target_temperature_high a = None /\
   target_temperature_low a = None /\
   calls (snd r) =
     calls w ++ [ReadCurrentTemperature; ReadFanMode; ReadHvacMode]).
Proof.
  cbv zeta; split; [apply update_keeps_readings|].
  unfold polled_mode; rewrite update_run, readings_run.
  destruct (read_current_temperature client (device w)) as [t d1]; cbn.
  destruct (read_fan_mode client d1) as [f d2]; cbn.
  destruct (read_hvac_mode client d2) as [[[m act]|] d3]; cbn.
  - intros [H|(m' & act' & H & _ & N)]; [discriminate|].
    injection H as <- <-; apply parse_mode_none in N; rewrite N; cbn.
    repeat split; eexists; reflexivity.
  - intros _; repeat split; eexists; reflexivity.
Qed.

(** X4: the fan mode a refresh stores, whatever its outcome.  No
    answer from the device leaves the fan mode absent; an ASCII answer
    is stored in lower case, and lower-casing it again changes
    nothing; and an answer that is one of the declared fan modes in
    any capitalisation is stored as the declared fan mode. *)
Theorem refresh_fan_mode (w : World D) :
  let answer :=
    fst (read_fan_mode client
           (snd (read_current_temperature client (device w)))) in
  let a := attrs (snd (async_update client DOMAIN w)) in
  (answer = None -> fan_mode a = None) /\
  (forall s, answer = Some s -> is_ascii s = true ->
             fan_mode a = Some (lower s) /\ lower (lower s) = lower s) /\
  (forall s f, answer = Some s -> In f _attr_fan_modes -> same_mode s f ->
               fan_mode a = Some f).
Proof.
  cbv zeta.
  destruct (update_keeps_readings w) as (_ & -> & _).
  destruct (readings_always w) as (_ & -> & _).
  split; [|split].
  - now intros ->.
  - intros s -> _; split; [reflexivity|apply lower_lower].
  - intros s f -> Hf E; cbn; rewrite E.
    destruct Hf as [<- | [<- | [<- | [<- | []]]]]; reflexivity.
Qed.

(** X5: when the device names the same mode at both mode reads of a
    refresh that returns, the action agrees with the mode: off gives
    off; heat gives heating or, for an inactive device, off; cool gives
    cooling or off; and heat_cool gives off or the side of the low
    target the current temperature is on. *)
Theorem refresh_action_agrees_with_mode (w : World D) :
  let first := fst (polled_mode client (device w)) in
  let r1 := async_update_readings client DOMAIN w in
  let second := fst (read_hvac_mode client (device (snd r1))) in
  let r := async_update client DOMAIN w in
  let a := attrs (snd r) in
  returns r ->
  (forall m1 a1 m2 a2,
      first = Some (m1, a1) -> second = Some (m2, a2) -> same_mode m1 m2) ->
  (hvac_mode a = Some HVACMode.OFF ->
   hvac_action a = Some HVACAction.OFF) /\
  (hvac_mode a = Some HVACMode.HEAT ->
   hvac_action a = Some HVACAction.HEATING \/
   hvac_action a = Some HVACAction.OFF) /\
  (hvac_mode a = Some HVACMode.COOL ->
   hvac_action a = Some HVACAction.COOLING \/
   hvac_action a = Some HVACAction.OFF) /\
  (hvac_mode a = Some HVACMode.HEAT_COOL ->
   hvac_action a = Some HVACAction.OFF \/
   exists c l,
     current_temperature a = Some c /\ target_temperature_low a = Some l /\
     hvac_action a =
       Some (if c >? l then HVACAction.COOLING else HVACAction.HEATING)).
Proof.
  cbv zeta; unfold polled_mode; rewrite update_run, readings_run.
  destruct (read_current_temperature client (device w)) as [t d1]; cbn.
  destruct (read_fan_mode client d1) as [f d2]; cbn.
  destruct (read_hvac_mode client d2) as [[[m1 a1]|] d3]; cbn;
    [|intros [x H]; discriminate].
  unfold parse_mode.
  destruct (upper m1 =? "HEAT")%string eqn:E1;
    [|destruct (upper m1 =? "COOL")%string eqn:E2;
      [|destruct (upper m1 =? "AUTO")%string eqn:E3;
        [|destruct (upper m1 =? "OFF")%string eqn:E4;
          [|intros [x H]; discriminate]]]];
    repeat match goal with
      | |- context [read_heating_setpoint client ?x] =>
          destruct (read_heating_setpoint client x) as [? ?]
      | |- context [read_cooling_setpoint client ?x] =>
          destruct (read_cooling_setpoint client x) as [? ?]
      end;
    cbn; rewrite action_run; cbn;
    match goal with
    | |- context [read_hvac_mode client ?x] =>
        destruct (read_hvac_mode client x) as [[[m2 [|]]|] dx]
    end; cbn;
    try (intros [x H]; discriminate);
    try (intros _ _; repeat split; intros; try discriminate; tauto);
    intros R A;
    pose proof (proj2 (upper_eq_same_mode _ _) (A m1 a1 m2 true eq_refl eq_refl))
      as U;
    revert R; unfold resolve_action; rewrite <- U, ?E1, ?E2, ?E3, ?E4; cbn;
    try match goal with
      | |- context [(upper m1 =? "OFF")%string] =>
          destruct (upper m1 =? "OFF")%string
      end; cbn;
    repeat match goal with
      | |- context [match ?x with Some _ => _ | None => _ end] =>
          is_var x; destruct x as [?|]; cbn
      end;
    try (intros [x H]; discriminate);
    intros _; repeat split; intros; try discriminate; try tauto;
    right; eexists; eexists; repeat split.
Qed.

(** X6: polling is idempotent on a device that its reads do not
    disturb: a second refresh right after the first has the same
    outcome, the same error if there is one, and leaves every attribute
    as the first left it. *)
Theorem refresh_idempotent (w : World D) :
  quiescent client ->
  let r := async_update client DOMAIN w in
  let r' := async_update client DOMAIN (snd r) in
  fst r' = fst r /\ attrs (snd r') = attrs (snd r) /\
  device (snd r') = device w.
Proof.
  intros (P1 & P2 & P3 & P4 & P5); destruct w as [a d c].
  pose proof (surjective_pairing (read_current_temperature client d)) as E1.
  pose proof (surjective_pairing (read_fan_mode client d)) as E2.
  pose proof (surjective_pairing (read_hvac_mode client d)) as E3.
  pose proof (surjective_pairing (read_heating_setpoint client d)) as E4.
  pose proof (surjective_pairing (read_cooling_setpoint client d)) as E5.
  rewrite P1 in E1; rewrite P2 in E2; rewrite P3 in E3; rewrite P4 in E4;
    rewrite P5 in E5.
  set (t := fst (read_current_temperature client d)) in E1.
  set (f := fst (read_fan_mode client d)) in E2.
  set (m := fst (read_hvac_mode client d)) in E3.
  set (hs := fst (read_heating_setpoint client d)) in E4.
  set (cs := fst (read_cooling_setpoint client d)) in E5.
  clearbody t f m hs cs; clear P1 P2 P3 P4 P5.
  cbv zeta; rewrite !update_run.
  destruct m as [[s [|]]|];
    [destruct (parse_mode s) as [h|] eqn:P;
       [destruct (parse_mode_range s h P) as [-> | [-> | [-> | ->]]]|]
    |destruct (parse_mode s) as [h|] eqn:P;
       [destruct (parse_mode_range s h P) as [-> | [-> | [-> | ->]]]|]
    |];
    repeat (progress (cbn; rewrite ?readings_run, ?action_run,
                        ?E1, ?E2, ?E3, ?E4, ?E5, ?P));
    try match goal with
      | |- context [resolve_action ?x ?y ?z] =>
          destruct (resolve_action x y z) eqn:RA
      end;
    repeat (progress (cbn; rewrite ?readings_run, ?action_run,
                        ?E1, ?E2, ?E3, ?E4, ?E5, ?P;
                      repeat match goal with
                        | H : resolve_action _ _ _ = _ |- _ => rewrite H
                        end));
    repeat split.
Qed.

End Polling.

(** ** Writing *)

Lemma stored_same_readings (ws : list FieldWrite) (a : Attrs) :
  same_readings (stored ws a) a.
Proof.
  revert a; induction ws as [|f ws IH]; intros a;
    [repeat split|].
  unfold stored in *; cbn.
  destruct (IH (fw_store f a)) as (H1 & H2 & H3 & H4).
  unfold same_readings; rewrite H1, H2, H3, H4.
  unfold fw_store; destruct (fw_field f); repeat split.
Qed.

Lemma fw_event_is_write (mode : option HVACMode.t) (f : FieldWrite) :
  is_setpoint_write (fw_event mode f) = true /\
  is_setpoint_call (fw_event mode f) = true /\
  is_signal (fw_event mode f) = false.
Proof.
  unfold fw_event; destruct (fw_field f), (heats mode); repeat split.
Qed.

Lemma completed_calls (mode : option HVACMode.t) (ws : list FieldWrite) :
  forallb is_setpoint_call (completed mode ws) = true /\
  List.length (filter is_setpoint_write (completed mode ws)) =
    List.length ws /\
  List.length (filter is_signal (completed mode ws)) = List.length ws.
Proof.
  induction ws as [|f ws (H1 & H2 & H3)]; [repeat split|].
  destruct (fw_event_is_write mode f) as (W1 & W2 & W3).
  unfold completed in *; cbn; rewrite W1, W2, W3; cbn.
  rewrite H1, H2, H3; repeat split.
Qed.

Lemma pending_length (kwargs : Kwargs) :
  (List.length (pending kwargs) <= 3)%nat.
Proof.
  destruct kwargs as [[h|] [l|] [t|]]; unfold pending; cbn;
    try destruct (truthy h); try destruct (truthy l);
    try destruct (truthy t); cbn; lia.
Qed.

Section Writing.
Context {D : Type}.
Variable client : BryantEvolutionClient D.
Variable DOMAIN : string.

(** [async_set_temperature] keeps the readings, whatever its
    outcome. *)
Lemma set_temperature_readings (kwargs : Kwargs) (w : World D) :
  same_readings (attrs (snd (async_set_temperature client DOMAIN kwargs w)))
                (attrs w).
Proof.
  rewrite set_temperature_run.
  destruct (writes_succeed_or_fail client (hvac_mode (attrs w))
              (pending kwargs) (device w))
    as [[d Hok]|(pre & f & post & d & P & Hok & Hfail)].
  - rewrite (run_writes_succeed client DOMAIN _ _ w d Hok).
    apply stored_same_readings.
  - pose proof (run_writes_fail client DOMAIN _ pre f post w d Hok Hfail)
      as R.
    rewrite <- P in R; rewrite R; apply stored_same_readings.
Qed.

(** X7: [async_set_temperature] touches nothing but the three
    setpoint attributes, whatever its outcome: the current
    temperature, the fan mode, the mode and the action stay as they
    were.  The calls it makes are setpoint writes and state-write
    signals only, at most three writes, and one signal for every write
    that succeeded: as many signals as writes when it returns, one
    fewer when it raises. *)
Theorem set_temperature_frame (kwargs : Kwargs) (w : World D) :
  let r := async_set_temperature client DOMAIN kwargs w in
  same_readings (attrs (snd r)) (attrs w) /\
  exists new,
    calls (snd r) = calls w ++ new /\
    forallb is_setpoint_call new = true /\
    (List.length (filter is_setpoint_write new) <= 3)%nat /\
    (returns r ->
     List.length (filter is_signal new) =
     List.length (filter is_setpoint_write new)) /\
    (raises r ->
     S (List.length (filter is_signal new)) =
     List.length (filter is_setpoint_write new)).
Proof.
  cbv zeta; split; [apply set_temperature_readings|].
  rewrite set_temperature_run.
  pose proof (pending_length kwargs) as L.
  destruct (writes_succeed_or_fail client (hvac_mode (attrs w))
              (pending kwargs) (device w))
    as [[d Hok]|(pre & f & post & d & P & Hok & Hfail)].
  - rewrite (run_writes_succeed client DOMAIN _ _ w d Hok); cbn.
    destruct (completed_calls (hvac_mode (attrs w)) (pending kwargs))
      as (C1 & C2 & C3).
    eexists; split; [reflexivity|]; split; [exact C1|].
    rewrite C2, C3; repeat split; try lia.
    intros [e H]; discriminate.
  - pose proof (run_writes_fail client DOMAIN _ pre f post w d Hok Hfail)
      as R.
    rewrite <- P in R; rewrite R; cbn.
    destruct (completed_calls (hvac_mode (attrs w)) pre) as (C1 & C2 & C3).
    destruct (fw_event_is_write (hvac_mode (attrs w)) f) as (W1 & W2 & W3).
    rewrite P, length_app in L; cbn in L.
    eexists; split; [reflexivity|].
    rewrite forallb_app, !filter_app, !length_app, C1, C2, C3; cbn.
    rewrite W1, W2, W3; cbn.
    repeat split; try lia.
    intros [x H]; discriminate.
Qed.

(** X8: a call with several fields does what the calls with one field
    each do when made one after the other, in the order
    [target_temp_high], [target_temp_low], [temperature], the first
    error ending the sequence. *)
Theorem set_temperature_sequential (h l t : option number) (w : World D) :
  async_set_temperature client DOMAIN (mkKwargs h l t) w =
  bind (async_set_temperature client DOMAIN (mkKwargs h None None))
    (fun _ =>
       bind (async_set_temperature client DOMAIN (mkKwargs None l None))
         (fun _ =>
            async_set_temperature client DOMAIN (mkKwargs None None t))) w.
Proof.
  assert (SH : forall w',
             async_set_temperature client DOMAIN (mkKwargs h None None) w' =
             run_writes client DOMAIN (hvac_mode (attrs w'))
               (field_write TargetTempHigh h) w').
  { intros w'; rewrite set_temperature_run; unfold pending.
    change (field_write TargetTempHigh h ++ [] ++ [])
      with (field_write TargetTempHigh h ++ []).
    now rewrite app_nil_r. }
  assert (SL : forall w',
             async_set_temperature client DOMAIN (mkKwargs None l None) w' =
             run_writes client DOMAIN (hvac_mode (attrs w'))
               (field_write TargetTempLow l) w').
  { intros w'; rewrite set_temperature_run; unfold pending.
    change ([] ++ field_write TargetTempLow l ++ [])
      with (field_write TargetTempLow l ++ []).
    now rewrite app_nil_r. }
  assert (ST : forall w',
             async_set_temperature client DOMAIN (mkKwargs None None t) w' =
             run_writes client DOMAIN (hvac_mode (attrs w'))
               (field_write Temperature t) w').
  { intros w'; now rewrite set_temperature_run. }
  rewrite set_temperature_run; unfold pending.
  change (target_temp_high (mkKwargs h l t)) with h.
  change (target_temp_low (mkKwargs h l t)) with l.
  change (temperature (mkKwargs h l t)) with t.
  set (mode := hvac_mode (attrs w)).
  rewrite run_writes_app; unfold bind; rewrite SH; fold mode.
  pose proof (run_writes_mode client DOMAIN mode
                (field_write TargetTempHigh h) w) as M1.
  destruct (run_writes client DOMAIN mode (field_write TargetTempHigh h) w)
    as [[[]|e] w1]; [|reflexivity].
  cbn in M1; fold mode in M1.
  rewrite run_writes_app; unfold bind; rewrite SL, M1.
  pose proof (run_writes_mode client DOMAIN mode
                (field_write TargetTempLow l) w1) as M2.
  destruct (run_writes client DOMAIN mode (field_write TargetTempLow l) w1)
    as [[[]|e] w2]; [|reflexivity].
  cbn in M2; rewrite M1 in M2.
  now rewrite ST, M2.
Qed.

(** X9: [async_set_hvac_mode] makes exactly one device call, the
    write of the string of the mode it sends; it returns exactly when
    the device accepts the write, and then holds the mode it sent,
    which is the requested mode for every mode but [HEAT_COOL].  No
    other attribute changes, whatever the outcome: the setpoints and
    the action stay as last polled. *)
Theorem set_hvac_mode_effect (m : HVACMode.t) (w : World D) :
  let sent := HVACMode.value (sent_mode m) in
  let answer := set_hvac_mode client sent (device w) in
  let r := async_set_hvac_mode client DOMAIN m w in
  let a := attrs (snd r) in
  (returns r <-> fst answer = true) /\
  device (snd r) = snd answer /\
  calls (snd r) =
    calls w ++ SetHvacMode sent ::
      (if fst answer then [WriteHaState] else []) /\
  a = set_hvac_mode_attr
        (if fst answer then Some (sent_mode m) else hvac_mode (attrs w))
        (attrs w) /\
  (m <> HVACMode.HEAT_COOL -> sent_mode m = m).
Proof.
  cbv zeta; unfold sent_mode; unfold_entity.
  destruct (set_hvac_mode client _ (device w)) as [[|] d]; cbn;
    rewrite <- ?app_assoc; cbn.
  - repeat split; [now exists tt|destruct m; tauto].
  - destruct w as [[] ? ?]; cbn.
    repeat split; try discriminate; [intros [x H]; discriminate|].
    destruct m; tauto.
Qed.

(** X10: [async_set_fan_mode] sends the fan mode to the device as it
    was given and returns exactly when the device accepts it.  No
    attribute but the fan mode changes, whatever the outcome, and the
    fan mode itself stays as it was when the device refuses.  When the
    device accepts, an ASCII fan mode is held in lower case, and a
    declared fan mode given in any capitalisation is held as the
    declared fan mode. *)
Theorem set_fan_mode_effect (fan : string) (w : World D) :
  let answer := set_fan_mode client fan (device w) in
  let r := async_set_fan_mode client DOMAIN fan w in
  let a := attrs (snd r) in
  (returns r <-> fst answer = true) /\
  device (snd r) = snd answer /\
  calls (snd r) =
    calls w ++ SetFanMode fan ::
      (if fst answer then [WriteHaState] else []) /\
  a = set_fan_mode_attr (fan_mode a) (attrs w) /\
  (fst answer = false -> fan_mode a = fan_mode (attrs w)) /\
  (fst answer = true -> is_ascii fan = true ->
   fan_mode a = Some (lower fan)) /\
  (forall f, In f _attr_fan_modes -> same_mode fan f -> returns r ->
             fan_mode a = Some f).
Proof.
  cbv zeta; unfold_entity.
  destruct (set_fan_mode client fan (device w)) as [[|] d]; cbn;
    rewrite <- ?app_assoc; cbn.
  - repeat split; try discriminate; [now exists tt|].
    intros f Hf E _; rewrite E.
    destruct Hf as [<- | [<- | [<- | [<- | []]]]]; reflexivity.
  - destruct w as [[] ? ?]; cbn.
    repeat split; try discriminate;
      intros;
      match goal with
      | H : returns _ |- _ => destruct H; discriminate
      | H : exists _, _ |- _ => destruct H; discriminate
      end.
Qed.

End Writing.

(** ** Writing, then polling *)

Lemma same_mode_trans (s t u : string) :
  same_mode s t -> same_mode t u -> same_mode s u.
Proof. unfold same_mode; congruence. Qed.

Section RoundTrip.
Context {D : Type}.
Variable client : BryantEvolutionClient D.
Variable DOMAIN : string.

(** The mode a refresh stores, from the first mode read. *)
Lemma update_mode (w : World D) (s : string) (active : bool)
  (h : HVACMode.t) :
  fst (polled_mode client (device w)) = Some (s, active) ->
  parse_mode s = Some h ->
  hvac_mode (attrs (snd (async_update client DOMAIN w))) = Some h.
Proof.
  intros P E.
  destruct (update_keeps_readings client DOMAIN w) as (_ & _ & -> & _).
  revert P; unfold polled_mode; rewrite readings_run.
  destruct (read_current_temperature client (device w)) as [t d1]; cbn.
  destruct (read_fan_mode client d1) as [f d2]; cbn.
  destruct (read_hvac_mode client d2) as [[[m act]|] d3]; cbn;
    [|discriminate].
  intros [= -> ->]; rewrite E.
  destruct (parse_mode_range s h E) as [-> | [-> | [-> | ->]]];
    repeat match goal with
      | |- context [read_heating_setpoint client ?x] =>
          destruct (read_heating_setpoint client x) as [? ?]
      | |- context [read_cooling_setpoint client ?x] =>
          destruct (read_cooling_setpoint client x) as [? ?]
      end; reflexivity.
Qed.

(** X11: the mode written is the mode read back.  When the device,
    polled after [async_set_hvac_mode], reports the mode string it was
    sent (in any capitalisation), the refresh stores the requested mode
    for each of the four declared modes: also [HEAT_COOL], for which
    the call itself had left [AUTO] in the attribute.  For the modes
    [DRY] and [FAN_ONLY] the refresh raises. *)
Theorem set_hvac_mode_round_trip (m : HVACMode.t) (w : World D)
  (s : string) (active : bool) :
  let r := async_set_hvac_mode client DOMAIN m w in
  let r' := async_update client DOMAIN (snd r) in
  fst (polled_mode client (device (snd r))) = Some (s, active) ->
  same_mode s (HVACMode.value (sent_mode m)) ->
  (In m _attr_hvac_modes -> hvac_mode (attrs (snd r')) = Some m) /\
  (m = HVACMode.DRY \/ m = HVACMode.FAN_ONLY -> raises r').
Proof.
  intros r r' P E; split.
  - intros [<- | [<- | [<- | [<- | []]]]]; cbn in E;
      apply (update_mode _ s active _ P);
      [now apply parse_mode_heat|now apply parse_mode_cool
      |now apply parse_mode_auto|now apply parse_mode_off].
  - intros Hm.
    assert (N : parse_mode s = None).
    { apply upper_eq_same_mode in E; unfold parse_mode; rewrite E.
      destruct Hm as [-> | ->]; reflexivity. }
    unfold raises; subst r'; rewrite update_result, readings_result, P, N.
    eexists; reflexivity.
Qed.

(** The single target a refresh stores, by the mode of the first mode
    read. *)
Lemma update_target (w : World D) (s : string) (active : bool) :
  let p := polled_mode client (device w) in
  let a := attrs (snd (async_update client DOMAIN w)) in
  fst p = Some (s, active) ->
  (parse_mode s = Some HVACMode.HEAT ->
   target_temperature a = fst (read_heating_setpoint client (snd p))) /\
  (parse_mode s = Some HVACMode.COOL ->
   target_temperature a = fst (read_cooling_setpoint client (snd p))) /\
  (parse_mode s = Some HVACMode.HEAT_COOL \/
   parse_mode s = Some HVACMode.OFF -> target_temperature a = None).
Proof.
  cbv zeta; intros P.
  destruct (update_keeps_readings client DOMAIN w) as (_ & _ & _ & -> & _).
  revert P; unfold polled_mode; rewrite readings_run.
  destruct (read_current_temperature client (device w)) as [t d1]; cbn.
  destruct (read_fan_mode client d1) as [f d2]; cbn.
  destruct (read_hvac_mode client d2) as [[[m act]|] d3]; cbn;
    [|discriminate].
  intros [= -> ->]; split; [|split]; intros E.
  - rewrite E; now destruct (read_heating_setpoint client d3).
  - rewrite E; now destruct (read_cooling_setpoint client d3).
  - destruct E as [E|E]; rewrite E; [|reflexivity].
    destruct (read_cooling_setpoint client d3) as [hi d4].
    now destruct (read_heating_setpoint client d4).
Qed.

(** X12: in heat and in cool mode the single target is written to the
    setpoint it is polled from.  When [async_set_temperature] with a
    [temperature] field returns, and the device, polled afterwards,
    still reports the entity's mode and answers each setpoint read with
    the value the call wrote to that setpoint, the refresh stores the
    target the call had stored: the written value, truncated. *)
Theorem set_temperature_round_trip (v : number) (w : World D)
  (m : HVACMode.t) (s : string) (active : bool) :
  let r := async_set_temperature client DOMAIN (only_temperature v) w in
  let p := polled_mode client (device (snd r)) in
  let r' := async_update client DOMAIN (snd r) in
  truthy v = true ->
  hvac_mode (attrs w) = Some m ->
  m = HVACMode.HEAT \/ m = HVACMode.COOL ->
  returns r ->
  fst p = Some (s, active) ->
  same_mode s (HVACMode.value m) ->
  (forall z new,
      calls (snd r) = calls w ++ new ->
      (In (SetHeatingSetpoint z) new ->
       fst (read_heating_setpoint client (snd p)) = Some z) /\
      (In (SetCoolingSetpoint z) new ->
       fst (read_cooling_setpoint client (snd p)) = Some z)) ->
  target_temperature (attrs (snd r)) = Some (int v) /\
  target_temperature (attrs (snd r')) = Some (int v).
Proof.
  intros r p r' Hv Hm Hhc R P E Hdev.
  destruct (update_target (snd r) s active P) as (UH & UC & _).
  fold r' in UH, UC; fold p in UH, UC.
  revert R Hdev UH UC; subst r'; generalize p; clear p P.
  subst r; rewrite set_temperature_run; unfold only_temperature, pending.
  cbn; rewrite Hv, Hm; cbn.
  unfold bind; rewrite write_field_run; unfold fw_setter, fw_event; cbn.
  destruct Hhc as [-> | ->]; cbn in *.
  - destruct (set_heating_setpoint client (int v) (device w)) as [[|] d];
      cbn; intros p R Hdev UH UC; [|destruct R; discriminate].
    split; [reflexivity|].
    rewrite UH by now apply parse_mode_heat.
    apply (Hdev (int v) _ eq_refl); now left.
  - destruct (set_cooling_setpoint client (int v) (device w)) as [[|] d];
      cbn; intros p R Hdev UH UC; [|destruct R; discriminate].
    split; [reflexivity|].
    rewrite UC by now apply parse_mode_cool.
    apply (Hdev (int v) _ eq_refl); now left.
Qed.

(** X13: in heat_cool and in off mode the single target is not read
    back.  When [async_set_temperature] with a [temperature] field
    returns, the entity holds the written value as its target; when
    the device, polled afterwards, reports auto or off, the refresh
    leaves the target absent. *)
Theorem set_temperature_target_dropped (v : number) (w : World D)
  (s : string) (active : bool) :
  let r := async_set_temperature client DOMAIN (only_temperature v) w in
  let r' := async_update client DOMAIN (snd r) in
  truthy v = true ->
  returns r ->
  fst (polled_mode client (device (snd r))) = Some (s, active) ->
  same_mode s "auto" \/ same_mode s "off" ->
  target_temperature (attrs (snd r)) = Some (int v) /\
  target_temperature (attrs (snd r')) = None.
Proof.
  intros r r' Hv R P E; split.
  - revert R; subst r; rewrite set_temperature_run.
    unfold only_temperature, pending; cbn; rewrite Hv; cbn.
    unfold bind; rewrite write_field_run.
    destruct (fw_setter client _ _ (device w)) as [[|] d]; cbn;
      [reflexivity|intros [x H]; discriminate].
  - apply (update_target (snd r) s active P).
    destruct E as [E|E];
      [left; now apply parse_mode_auto|right; now apply parse_mode_off].
Qed.

End RoundTrip.

(** ** The temperature sensor *)

Section Sensor.
Context {D : Type}.
Variable client : BryantEvolutionClient D.
Variable DOMAIN : string.

(** X14: the temperature sensor shows the climate entity's current
    temperature.  A refresh sets that to the device's reading before
    anything can fail, so after a refresh, returned or raised, the
    sensor shows what the device answered to the temperature read; and
    no mutator changes what the sensor shows. *)
Theorem sensor_shows_latest_reading
  (sensor : BryantEvolutionTemperatureSensor.t) (w : World D) :
  let value := @BryantEvolutionTemperatureSensor.native_value D sensor in
  value (snd (async_update client DOMAIN w)) =
    fst (read_current_temperature client (device w)) /\
  (forall m, value (snd (async_set_hvac_mode client DOMAIN m w)) = value w) /\
  (forall fan,
      value (snd (async_set_fan_mode client DOMAIN fan w)) = value w) /\
  (forall kwargs,
      value (snd (async_set_temperature client DOMAIN kwargs w)) = value w).
Proof.
  unfold BryantEvolutionTemperatureSensor.native_value; cbv zeta.
  split; [|split; [|split]].
  - destruct (update_keeps_readings client DOMAIN w) as (-> & _).
    now destruct (readings_always client DOMAIN w) as (-> & _).
  - intros m; unfold_entity.
    now destruct (set_hvac_mode client _ (device w)) as [[|] d].
  - intros fan; unfold_entity.
    now destruct (set_fan_mode client fan (device w)) as [[|] d].
  - intros kwargs; apply set_temperature_readings.
Qed.

End Sensor.

(** ** Construction *)

Lemma append_inj_l (p s t : string) :
  (p ++ s = p ++ t)%string -> s = t.
Proof.
  induction p as [|c p IH]; cbn; [auto|].
  intros H; injection H as H; auto.
Qed.

Lemma append_last_inj (s s' : string) (a b : ascii) :
  (s ++ String a "" = s' ++ String b "")%string -> s = s' /\ a = b.
Proof.
  revert s'; induction s as [|c r IH]; intros [|c' r']; cbn; intros H.
  - injection H as ->; auto.
  - injection H as -> H; destruct r'; discriminate.
  - injection H as -> H; destruct r; discriminate.
  - injection H as -> H; apply IH in H as [-> ->]; auto.
Qed.

Lemma append_snoc (s t : string) (c : ascii) :
  ((s ++ String c "") ++ t = s ++ String c t)%string.
Proof. induction s as [|x s IH]; cbn; [reflexivity|now rewrite IH]. Qed.

Lemma append_inj_r (t s s' : string) :
  (s ++ t = s' ++ t)%string -> s = s'.
Proof.
  revert s s'; induction t as [|c t IH]; intros s s' H.
  - revert s' H; induction s as [|x s IHs]; intros [|x' s']; cbn;
      try discriminate; [reflexivity|].
    intros H; injection H as -> H; f_equal; auto.
  - rewrite <- (append_snoc s t c), <- (append_snoc s' t c) in H.
    apply IH in H; now apply append_last_inj in H.
Qed.

Lemma append_assoc (s t u : string) :
  (s ++ t ++ u = (s ++ t) ++ u)%string.
Proof. induction s as [|x s IH]; cbn; [reflexivity|now rewrite IH]. Qed.

Lemma append_last2_inj (s s' : string) (a b a' b' : ascii) :
  (s ++ String a (String b "") = s' ++ String a' (String b' ""))%string ->
  a = a' /\ b = b'.
Proof.
  rewrite <- (append_snoc s (String b "") a).
  rewrite <- (append_snoc s' (String b' "") a').
  intros H; apply append_last_inj in H as [H ->].
  now apply append_last_inj in H as [_ ->].
Qed.

(** A string none of whose characters is [c] ends where [c] first
    occurs. *)
Lemma split_at_first (c : ascii) (a a' r r' : string) :
  free_of c a -> free_of c a' ->
  (a ++ String c r = a' ++ String c r')%string -> a = a' /\ r = r'.
Proof.
  revert a'; induction a as [|x a IH]; intros [|x' a']; cbn;
    intros F F' H.
  - injection H as ->; auto.
  - injection H as <- _; now destruct F'.
  - injection H as -> _; now destruct F.
  - injection H as -> H; destruct F as [_ F], F' as [_ F'].
    destruct (IH a' F F' H) as [-> ->]; auto.
Qed.

Lemma string_of_uint_digits (c : ascii) (d : Decimal.uint) :
  (c = "," \/ c = ")")%char -> free_of c (NilEmpty.string_of_uint d).
Proof.
  intros Hc; induction d; cbn; try split; try assumption;
    destruct Hc as [-> | ->]; discriminate.
Qed.

Lemma format_int_free (c : ascii) (z : Z) :
  (c = "," \/ c = ")")%char -> free_of c (format_int z).
Proof.
  intros Hc; unfold format_int, NilZero.string_of_int.
  assert (U : forall d, free_of c (NilZero.string_of_uint d)).
  { intros d; pose proof (string_of_uint_digits c d Hc) as H.
    destruct d; try exact H.
    cbn; split; [destruct Hc as [-> | ->]; discriminate|exact I]. }
  destruct (Z.to_int z); [apply U|].
  cbn; split; [destruct Hc as [-> | ->]; discriminate|apply U].
Qed.

Lemma format_int_inj (z z' : Z) : format_int z = format_int z' -> z = z'.
Proof.
  unfold format_int; intros H.
  assert (N : forall x, Z.to_int x <> Decimal.Pos Decimal.Nil /\
                        Z.to_int x <> Decimal.Neg Decimal.Nil).
  { intros x; split; intros E;
      pose proof (DecimalZ.of_to x) as O; rewrite E in O; cbn in O;
      subst x; discriminate. }
  destruct (N z) as [P1 P2], (N z') as [P1' P2'].
  pose proof (NilZero.isi _ P1 P2) as I1.
  pose proof (NilZero.isi _ P1' P2') as I2.
  rewrite H in I1; rewrite I1 in I2; injection I2 as I2.
  now apply DecimalZ.to_int_inj.
Qed.

(** X15: the unique ids [async_setup_entry] gives out.  The climate
    entity and the temperature sensor never share a unique id, not
    even across config entries; two climate entities, or two sensors,
    have the same unique id only for the same config entry; and the
    sensor carries the device info of its climate entity, whose one
    identifier is the domain paired with the climate entity's unique
    id. *)
Theorem setup_entry_unique_ids (DOMAIN e e' : string)
  (sys zone sys' zone' : Z) (n n' : option string) :
  let c := fst (async_setup_entry DOMAIN e sys zone n) in
  let s := snd (async_setup_entry DOMAIN e sys zone n) in
  let c' := fst (async_setup_entry DOMAIN e' sys' zone' n') in
  let s' := snd (async_setup_entry DOMAIN e' sys' zone' n') in
  BryantEvolutionClimate._attr_unique_id c <>
    BryantEvolutionTemperatureSensor._attr_unique_id s' /\
  (BryantEvolutionClimate._attr_unique_id c =
   BryantEvolutionClimate._attr_unique_id c' -> e = e') /\
  (BryantEvolutionTemperatureSensor._attr_unique_id s =
   BryantEvolutionTemperatureSensor._attr_unique_id s' -> e = e') /\
  BryantEvolutionTemperatureSensor._attr_device_info s =
    BryantEvolutionClimate._attr_device_info c /\
  DeviceInfo.identifiers (BryantEvolutionClimate._attr_device_info c) =
    [(DOMAIN, BryantEvolutionClimate._attr_unique_id c)].
Proof.
  cbn; repeat split.
  - intros H.
    change (e ++ "-climate")%string
      with (e ++ "-clima" ++ "te")%string in H.
    change ((e' ++ "-climate") ++ "_temperature")%string
      with ((e' ++ "-climate") ++ "_temperatu" ++ "re")%string in H.
    rewrite (append_assoc e), (append_assoc (e' ++ "-climate")) in H.
    apply append_last2_inj in H; destruct H; discriminate.
  - apply append_inj_r.
  - intros H; apply append_inj_r in H; now apply append_inj_r in H.
Qed.

(** X16: the device name [__init__] composes names the system and the
    zone: two entities have the same device name only if their system
    ids are equal and their zone ids are equal. *)
Theorem device_name_identifies_zone (DOMAIN uid uid' : string)
  (sys zone sys' zone' : Z) :
  DeviceInfo.name
    (BryantEvolutionClimate._attr_device_info
       (BryantEvolutionClimate.__init__ DOMAIN uid sys zone)) =
  DeviceInfo.name
    (BryantEvolutionClimate._attr_device_info
       (BryantEvolutionClimate.__init__ DOMAIN uid' sys' zone')) ->
  sys = sys' /\ zone = zone'.
Proof.
  cbn [BryantEvolutionClimate.__init__ BryantEvolutionClimate._attr_device_info
       DeviceInfo.name]; intros H.
  apply append_inj_l in H.
  change (", Zone " ++ format_int zone ++ ")")%string
    with (String "," (" Zone " ++ format_int zone ++ ")")%string) in H.
  change (", Zone " ++ format_int zone' ++ ")")%string
    with (String "," (" Zone " ++ format_int zone' ++ ")")%string) in H.
  apply split_at_first in H; try (apply format_int_free; now left).
  destruct H as [Hs H]; apply append_inj_l in H.
  apply split_at_first in H; try (apply format_int_free; now right).
  destruct H as [Hz _].
  split; now apply format_int_inj.
Qed.

(** ** The further properties on the simulated thermostat *)

(** The reads of the simulated thermostat leave it as it is. *)
Lemma thermostat_quiescent : quiescent thermostat.
Proof. repeat split. Qed.

(** X2 on the thermostat in heat mode: a refresh from a fresh entity
    and one from an entity left in another state end with the same
    attributes. *)
Lemma refresh_forgets_attributes_witness :
  let stale :=
    mkAttrs (Some 50) (Some "high") (Some HVACMode.COOL) (Some 60)
            (Some 61) (Some 62) (Some HVACAction.COOLING) in
  attrs (snd (async_update thermostat domain (fresh heating_66))) =
  attrs (snd (async_update thermostat domain
                (mkWorld stale heating_66 [WriteHaState]))).
Proof.
  apply (refresh_forgets_attributes thermostat domain no_attrs
           (mkAttrs (Some 50) (Some "high") (Some HVACMode.COOL) (Some 60)
                    (Some 61) (Some 62) (Some HVACAction.COOLING))
           heating_66 [] [WriteHaState]).
  exists tt; vm_compute; reflexivity.
Defined.

(** X3 on a thermostat that does not answer the mode read, and on
    one that reports the mode "FROST". *)
Lemma refresh_failure_state_witness :
  let r := async_update thermostat domain (in_mode HVACMode.HEAT silent) in
  let r' := async_update thermostat domain (in_mode HVACMode.COOL frosty) in
  (raises r /\
   hvac_mode (attrs (snd r)) = Some HVACMode.HEAT /\
   target_temperature (attrs (snd r)) = None /\
   target_temperature_high (attrs (snd r)) = None /\
   target_temperature_low (attrs (snd r)) = None /\
   calls (snd r) = [ReadCurrentTemperature; ReadFanMode; ReadHvacMode]) /\
  (raises r' /\ hvac_mode (attrs (snd r')) = Some HVACMode.COOL).
Proof.
  destruct (refresh_failure_state thermostat domain
              (in_mode HVACMode.HEAT silent)) as [_ F].
  destruct (refresh_failure_state thermostat domain
              (in_mode HVACMode.COOL frosty)) as [_ F'].
  split; [apply F; left; vm_compute; reflexivity|].
  assert (N : ~ recognized "FROST").
  { intros [H|[H|[H|H]]]; vm_compute in H; discriminate. }
  destruct F' as (R & M & _).
  - right; exists "FROST", true.
    split; [vm_compute; reflexivity|]; split; [reflexivity|exact N].
  - split; [exact R|exact M].
Defined.

(** X4: the thermostat answers "LOW" and the entity holds "low". *)
Lemma refresh_fan_mode_witness :
  fan_mode (attrs (snd (async_update thermostat domain (fresh heating_66)))) =
  Some "low".
Proof.
  destruct (refresh_fan_mode thermostat domain (fresh heating_66))
    as (_ & L & F).
  assert (A : fst (read_fan_mode thermostat
                     (snd (read_current_temperature thermostat
                             (device (fresh heating_66))))) = Some "LOW")
    by (vm_compute; reflexivity).
  destruct (L "LOW" A eq_refl) as [E _].
  rewrite E; vm_compute; reflexivity.
Defined.

(** X5 on the thermostat in heat mode. *)
Lemma refresh_action_agrees_with_mode_witness :
  let a := attrs (snd (async_update thermostat domain (fresh heating_66))) in
  hvac_action a = Some HVACAction.HEATING \/
  hvac_action a = Some HVACAction.OFF.
Proof.
  assert (R : returns (async_update thermostat domain (fresh heating_66)))
    by (exists tt; vm_compute; reflexivity).
  assert (A : forall m1 a1 m2 a2,
             fst (polled_mode thermostat (device (fresh heating_66))) =
               Some (m1, a1) ->
             fst (read_hvac_mode thermostat
                    (device (snd (async_update_readings thermostat domain
                                    (fresh heating_66))))) = Some (m2, a2) ->
             same_mode m1 m2).
  { intros m1 a1 m2 a2 H1 H2; vm_compute in H1, H2.
    injection H1 as <- <-; injection H2 as <- <-; reflexivity. }
  apply (proj1 (proj2 (refresh_action_agrees_with_mode thermostat domain
                         (fresh heating_66) R A))).
  vm_compute; reflexivity.
Defined.

(** X6 on the thermostat in auto mode. *)
Lemma refresh_idempotent_witness :
  let r := async_update thermostat domain (fresh auto_72_70) in
  attrs (snd (async_update thermostat domain (snd r))) = attrs (snd r).
Proof.
  apply (refresh_idempotent thermostat domain (fresh auto_72_70)
           thermostat_quiescent).
Defined.

(** X7 on a thermostat that takes the first write and rejects the
    second: two writes, one signal. *)
Lemma set_temperature_frame_witness :
  let w := in_mode HVACMode.COOL (cooling_74 [true; false]) in
  let r := async_set_temperature thermostat domain all_three_fields w in
  same_readings (attrs (snd r)) (attrs w) /\
  exists new,
    calls (snd r) = calls w ++ new /\
    S (List.length (filter is_signal new)) =
    List.length (filter is_setpoint_write new).
Proof.
  destruct (set_temperature_frame thermostat domain all_three_fields
              (in_mode HVACMode.COOL (cooling_74 [true; false])))
    as (F & new & Hc & _ & _ & _ & Hr).
  split; [exact F|].
  exists new; split; [exact Hc|].
  apply Hr; eexists; vm_compute; reflexivity.
Defined.

(** X9 on a thermostat that accepts the write. *)
Lemma set_hvac_mode_effect_witness :
  returns (async_set_hvac_mode thermostat domain HVACMode.HEAT
             (fresh switched_off)) /\
  sent_mode HVACMode.HEAT = HVACMode.HEAT.
Proof.
  destruct (set_hvac_mode_effect thermostat domain HVACMode.HEAT
              (fresh switched_off)) as (R & _ & _ & _ & S).
  split; [apply R; vm_compute; reflexivity|apply S; discriminate].
Defined.

(** X10: "HIGH" is sent as given and held as "high". *)
Lemma set_fan_mode_effect_witness :
  let r := async_set_fan_mode thermostat domain "HIGH" (fresh idle_70) in
  fan_mode (attrs (snd r)) = Some "high".
Proof.
  destruct (set_fan_mode_effect thermostat domain "HIGH" (fresh idle_70))
    as (_ & _ & _ & _ & _ & L & _).
  cbv zeta; rewrite L; vm_compute; reflexivity.
Defined.

(** X11: after [async_set_hvac_mode] with [HEAT_COOL] the entity holds
    [AUTO], and [HEAT_COOL] after the next refresh. *)
Lemma set_hvac_mode_round_trip_witness :
  let r := async_set_hvac_mode thermostat domain HVACMode.HEAT_COOL
             (fresh idle_70) in
  hvac_mode (attrs (snd r)) = Some HVACMode.AUTO /\
  hvac_mode (attrs (snd (async_update thermostat domain (snd r)))) =
    Some HVACMode.HEAT_COOL.
Proof.
  split; [vm_compute; reflexivity|].
  apply (set_hvac_mode_round_trip thermostat domain HVACMode.HEAT_COOL
           (fresh idle_70) "auto" false).
  - vm_compute; reflexivity.
  - vm_compute; reflexivity.
  - right; right; left; reflexivity.
Defined.

(** X12: a target of 75 set in heat mode is the target after the next
    refresh. *)
Lemma set_temperature_round_trip_witness :
  let w := in_mode HVACMode.HEAT heating_66 in
  let r := async_set_temperature thermostat domain
             (only_temperature (Int 75)) w in
  target_temperature (attrs (snd r)) = Some 75 /\
  target_temperature (attrs (snd (async_update thermostat domain (snd r)))) =
    Some 75.
Proof.
  apply (set_temperature_round_trip thermostat domain (Int 75)
           (in_mode HVACMode.HEAT heating_66) HVACMode.HEAT "Heat" true).
  - reflexivity.
  - reflexivity.
  - left; reflexivity.
  - exists tt; vm_compute; reflexivity.
  - vm_compute; reflexivity.
  - vm_compute; reflexivity.
  - intros z new H; vm_compute in H; subst new; split.
    + intros [H|[H|[]]]; [|discriminate].
      injection H as <-; vm_compute; reflexivity.
    + intros [H|[H|[]]]; discriminate.
Defined.

(** X13: a target of 75 set while the thermostat is off is gone after
    the next refresh. *)
Lemma set_temperature_target_dropped_witness :
  let w := in_mode HVACMode.OFF switched_off in
  let r := async_set_temperature thermostat domain
             (only_temperature (Int 75)) w in
  target_temperature (attrs (snd r)) = Some 75 /\
  target_temperature (attrs (snd (async_update thermostat domain (snd r)))) =
    None.
Proof.
  apply (set_temperature_target_dropped thermostat domain (Int 75)
           (in_mode HVACMode.OFF switched_off) "OFF" false).
  - reflexivity.
  - exists tt; vm_compute; reflexivity.
  - vm_compute; reflexivity.
  - right; vm_compute; reflexivity.
Defined.

(** X14 on the thermostat in heat mode, refreshed and then given a new
    fan mode. *)
Lemma sensor_shows_latest_reading_witness :
  let sensor :=
    snd (async_setup_entry domain "entry" 1 2 None) in
  let w := snd (async_update thermostat domain (fresh heating_66)) in
  BryantEvolutionTemperatureSensor.native_value sensor
    (snd (async_set_fan_mode thermostat domain "high" w)) = Some 66.
Proof.
  destruct (sensor_shows_latest_reading thermostat domain
              (snd (async_setup_entry domain "entry" 1 2 None))
              (snd (async_update thermostat domain (fresh heating_66))))
    as (_ & _ & F & _).
  destruct (sensor_shows_latest_reading thermostat domain
              (snd (async_setup_entry domain "entry" 1 2 None))
              (fresh heating_66))
    as (U & _).
  cbv zeta in *; rewrite F, U; reflexivity.
Defined.

(** X15 for one config entry. *)
Lemma setup_entry_unique_ids_witness :
  let c := fst (async_setup_entry domain "entry" 1 2 None) in
  let s := snd (async_setup_entry domain "entry" 1 2 None) in
  BryantEvolutionClimate._attr_unique_id c = "entry-climate" /\
  BryantEvolutionTemperatureSensor._attr_unique_id s =
    "entry-climate_temperature" /\
  BryantEvolutionClimate._attr_unique_id c <>
    BryantEvolutionTemperatureSensor._attr_unique_id s /\
  "entry" = "entry".
Proof.
  destruct (setup_entry_unique_ids domain "entry" "entry" 1 2 1 2 None None)
    as (N & I & _).
  split; [reflexivity|]; split; [reflexivity|]; split; [exact N|].
  apply I; reflexivity.
Defined.

(** X16 on system 1, zone 2. *)
Lemma device_name_identifies_zone_witness :
  DeviceInfo.name
    (BryantEvolutionClimate._attr_device_info
       (BryantEvolutionClimate.__init__ domain "entry-climate" 1 2)) =
    "Bryant Evolution (System 1, Zone 2)" /\
  (1 = 1 /\ 2 = 2).
Proof.
  split; [vm_compute; reflexivity|].
  apply (device_name_identifies_zone domain "entry-climate" "other-climate"
           1 2 1 2).
  reflexivity.
Defined.
